(** * Token panels of the Solana front-end: a shallow embedding

    This development models the token panels of the application
    (send, mint, create, airdrop), the connection cache and the retry
    helper of [utils/connection], and proves the properties stated for
    them.

    The network, the wallet adapter and the chain SDK are external
    collaborators.  They are modelled as an oracle environment [Env]: the
    n-th network call of a run receives the answer [env_... n]; every call
    is logged in the trace of the run together with its answer.  Handlers
    run in a state and exception monad [M] with an extra outcome
    [Returned] for an early [return] out of an [async] handler. *)

From Stdlib Require Import ZArith QArith Ascii String List Bool.
From Stdlib Require Import Floats.SpecFloat Lqa.
From stdpp Require Import base gmap strings list.

Local Open Scope Z_scope.
#[local] Set Warnings "-register-all".

(* ------------------------------------------------------------------ *)
(** ** JavaScript values and the objects the panels handle *)

Definition addr := string.

(** A thrown value: an [Error] object (with its object identity and its
    [message]) or any other value, carried with its [String(...)]. *)
Inductive exn :=
| JSError (oid : nat) (msg : string)
| JSValue (repr : string).

Inductive result (A : Type) :=
| ROk (a : A)
| RErr (e : exn).
Arguments ROk {A} a.
Arguments RErr {A} e.

(** React state values of a panel. *)
Inductive uval :=
| UStr (s : string)
| UBool (b : bool)
| UNum (n : Z)
| UNull.

(** A [web3.Connection] object: its identity and the configuration it
    was constructed with. *)
Record conn := mkConn {
  conn_oid : nat;
  conn_endpoint : string;
  conn_commitment : string;
  conn_confirmTransactionInitialTimeout : Z;
  conn_disableRetryOnRateLimit : bool
}.

(** The value of [connectionCache[endpoint]]: an own property (a cached
    connection) or a member inherited from [Object.prototype]. *)
Inductive jsval :=
| JConn (c : conn)
| JProtoMember (name : string).

(** Instructions built by the panels (arguments as passed to the
    spl-token / system-program builders; amounts as the u64 encoded). *)
Inductive instruction :=
| IxCreateAccount (from newAccount : addr) (space lamports : Z)
| IxInitializeMint (mint : addr) (decimals : Z) (mintAuthority freezeAuthority : addr)
| IxCreateATA (payer ata owner mint : addr)
| IxTransfer (source destination owner : addr) (amount : Z)
| IxMintTo (mint destination authority : addr) (amount : Z).

Record tx := mkTx {
  tx_instructions : list instruction;
  tx_recentBlockhash : option string;
  tx_feePayer : option addr
}.

Definition new_Transaction : tx := mkTx [] None None.

(** [transaction.add(ix)] appends the instruction. *)
Definition tx_add (t : tx) (ix : instruction) : tx :=
  mkTx (tx_instructions t ++ [ix]) (tx_recentBlockhash t) (tx_feePayer t).

Definition tx_set_blockhash (t : tx) (bh : string) : tx :=
  mkTx (tx_instructions t) (Some bh) (tx_feePayer t).

Definition tx_set_feePayer (t : tx) (p : addr) : tx :=
  mkTx (tx_instructions t) (tx_recentBlockhash t) (Some p).

(** The two forms of [connection.confirmTransaction]. *)
Inductive confirm_arg :=
| ConfirmBySig (signature commitment : string)
| ConfirmByBlockhash (signature blockhash : string) (lastValidBlockHeight : Z).

(** Network and wallet calls. *)
Inductive call :=
| CGetMint (mint : addr)
| CGetAccountInfo (a : addr)
| CGetLatestBlockhash
| CGetMinimumBalanceForRentExemption (space : Z)
| CSendTransaction (t : tx) (signers : list addr)
| CConfirm (c : confirm_arg)
| CRequestAirdrop (a : addr) (lamports : Z)
| COp.

(** Answers, as logged in the trace. *)
Inductive rval :=
| VMint (decimals : Z)
| VAccount (exists_ : bool)
| VBlockhash (blockhash : string) (lastValidBlockHeight : Z)
| VLamports (n : Z)
| VSig (signature : string)
| VConfirm (err : option string)
| VOp.

Inductive toast_id :=
| TIdGen (n : nat)
| TIdNamed (s : string).

(** Notification contents: text, a link, or a block of contents. *)
Inductive content :=
| TText (s : string)
| TLink (label url : string)
| TBlock (cs : list content).

Inductive toast_kind := KLoading | KSuccess | KError.

Inductive event :=
| ENet (c : call) (r : result rval)
| ESleep (ms : Q)
| EToast (k : toast_kind) (c : content) (id : option toast_id)
| EDismiss (id : toast_id)
| ESetState (field : string) (v : uval)
| EStorage (key value : string).

(* ------------------------------------------------------------------ *)
(** ** The environment (external collaborators) and the state *)

Record Env := mkEnv {
  (** [new web3.PublicKey(s)]: [None] when the constructor throws *)
  env_parse_pubkey : string -> option addr;
  (** [token.getAssociatedTokenAddress(mint, owner)]: [None] when it
      throws (owner off curve) *)
  env_ata : addr -> addr -> option addr;
  env_getMint : nat -> addr -> result Z;
  env_getAccountInfo : nat -> addr -> result bool;
  env_getLatestBlockhash : nat -> result (string * Z);
  env_rent : nat -> Z -> result Z;
  env_sendTransaction : nat -> tx -> result string;
  env_confirm : nat -> confirm_arg -> result (option string);
  env_requestAirdrop : nat -> addr -> Z -> result string;
  (** the n-th value of [Math.random()] *)
  env_random : nat -> Q;
  (** the public key of the n-th [web3.Keypair.generate()] *)
  env_keypair : nat -> addr;
  (** the message of the [TypeError] thrown by a call of the missing
      [toast.info]; its text depends on the engine and the bundler *)
  env_toast_info_error : string
}.

Record St := mkSt {
  st_trace : list event;
  st_ncalls : nat;
  st_ndraws : nat;
  st_nobj : nat;
  (** the module-level [connectionCache] (own properties) *)
  st_cache : gmap string conn;
  (** the React state of the panel *)
  st_store : gmap string uval
}.

Definition st_log (s : St) (e : event) : St :=
  mkSt (st_trace s ++ [e]) (st_ncalls s) (st_ndraws s) (st_nobj s) (st_cache s) (st_store s).

Definition st_next_call (s : St) : St :=
  mkSt (st_trace s) (S (st_ncalls s)) (st_ndraws s) (st_nobj s) (st_cache s) (st_store s).

Definition st_next_draw (s : St) : St :=
  mkSt (st_trace s) (st_ncalls s) (S (st_ndraws s)) (st_nobj s) (st_cache s) (st_store s).

Definition st_next_obj (s : St) : St :=
  mkSt (st_trace s) (st_ncalls s) (st_ndraws s) (S (st_nobj s)) (st_cache s) (st_store s).

Definition st_set_cache (s : St) (c : gmap string conn) : St :=
  mkSt (st_trace s) (st_ncalls s) (st_ndraws s) (st_nobj s) c (st_store s).

Definition st_set_store (s : St) (k : string) (v : uval) : St :=
  mkSt (st_trace s ++ [ESetState k v]) (st_ncalls s) (st_ndraws s) (st_nobj s)
       (st_cache s) (<[k := v]> (st_store s)).

(* ------------------------------------------------------------------ *)
(** ** The monad *)

Inductive outcome (A : Type) :=
| Done (a : A)
| Thrown (e : exn)
| Returned.
Arguments Done {A} a.
Arguments Thrown {A} e.
Arguments Returned {A}.

Definition M (A : Type) : Type := Env -> St -> outcome A * St.

Global Instance M_ret : MRet M := fun A a env s => (Done a, s).

Global Instance M_bind : MBind M := fun A B k c env s =>
  match c env s with
  | (Done a, s1) => k a env s1
  | (Thrown e, s1) => (Thrown e, s1)
  | (Returned, s1) => (Returned, s1)
  end.

Definition throw {A} (e : exn) : M A := fun env s => (Thrown e, s).

(** [return;] out of the handler. *)
Definition early_return {A} : M A := fun env s => (Returned, s).

(** [try { body } catch (e) { handler }] *)
Definition try_catch {A} (body : M A) (handler : exn -> M A) : M A :=
  fun env s =>
    match body env s with
    | (Thrown e, s1) => handler e env s1
    | r => r
    end.

(** [try { body } catch (e) { handler } finally { fin }] *)
Definition try_catch_finally {A} (body : M A) (handler : exn -> M A)
    (fin : M unit) : M A :=
  fun env s =>
    let '(o, s2) := try_catch body handler env s in
    match fin env s2 with
    | (Done _, s3) => (o, s3)
    | (Thrown e, s3) => (Thrown e, s3)
    | (Returned, s3) => (Returned, s3)
    end.

Definition get_env : M Env := fun env s => (Done env, s).

Definition log_event (e : event) : M unit := fun env s => (Done tt, st_log s e).

(** [new Error(msg)]: a fresh object identity. *)
Definition new_Error (msg : string) : M exn :=
  fun env s => (Done (JSError (st_nobj s) msg), st_next_obj s).

Definition throw_new_Error {A} (msg : string) : M A :=
  e ← new_Error msg; throw e.

(** A network call answered by the oracle for the current call number. *)
Definition net_call {A} (c : call) (answer : Env -> nat -> result A)
    (inj : A -> rval) : M A :=
  fun env s =>
    let n := st_ncalls s in
    match answer env n with
    | ROk a => (Done a, st_next_call (st_log s (ENet c (ROk (inj a)))))
    | RErr e => (Thrown e, st_next_call (st_log s (ENet c (RErr e))))
    end.

Definition math_random : M Q :=
  fun env s => (Done (env_random env (st_ndraws s)), st_next_draw s).

(** [sleep(ms)]: [new Promise(resolve => setTimeout(resolve, ms))]; the
    trace records the delay requested of the timer. *)
Definition sleep (ms : Q) : M unit := log_event (ESleep ms).

(** The time the browser timer waits for a requested delay [ms]: WebIDL
    converts the delay to a [long] (truncation toward zero, then
    wrap-around modulo 2^32 into the signed 32-bit range), and the HTML
    timer steps turn a negative delay into 0. *)
Definition timer_wait (ms : Q) : Z :=
  let t := Z.modulo (Z.quot (Qnum ms) (Zpos (Qden ms))) (2 ^ 32) in
  if t <? 2 ^ 31 then t else 0.

Definition set_state (k : string) (v : uval) : M unit :=
  fun env s => (Done tt, st_set_store s k v).

(* ------------------------------------------------------------------ *)
(** ** [utils/connection]: [getReliableConnection] *)

(** The members every object literal inherits from [Object.prototype];
    each of them is truthy. *)
Definition object_prototype_members : list string :=
  ["constructor"; "__defineGetter__"; "__defineSetter__"; "hasOwnProperty";
   "__lookupGetter__"; "__lookupSetter__"; "isPrototypeOf";
   "propertyIsEnumerable"; "toString"; "valueOf"; "__proto__";
   "toLocaleString"]%string.

(** Property read [connectionCache[endpoint]] ([None] is [undefined]). *)
Definition cache_get (cache : gmap string conn) (k : string) : option jsval :=
  match cache !! k with
  | Some c => Some (JConn c)
  | None =>
      if bool_decide (k ∈ object_prototype_members)
      then Some (JProtoMember k) else None
  end.

(** The check of the web3.js [Connection] constructor: the endpoint must
    match [/^https?:/]. *)
Definition endpoint_url_ok (endpoint : string) : bool :=
  String.prefix "http:" endpoint || String.prefix "https:" endpoint.

(** web3.js [assertEndpointUrl]: [throw new TypeError('Endpoint URL must
    start with `http:` or `https:`.')] unless the endpoint passes. *)
Definition assertEndpointUrl (putativeUrl : string) : M string :=
  if endpoint_url_ok putativeUrl then mret putativeUrl
  else throw_new_Error "Endpoint URL must start with `http:` or `https:`.".

(** [new Connection(endpoint, { commitment: 'confirmed',
    confirmTransactionInitialTimeout: 60000, disableRetryOnRateLimit: false })] *)
Definition new_reliable_Connection (endpoint : string) : M conn :=
  rpcEndpoint ← assertEndpointUrl endpoint;
  ((fun env s =>
      (Done (mkConn (st_nobj s) rpcEndpoint "confirmed" 60000 false), st_next_obj s))
   : M conn).

Definition getReliableConnection (endpoint : string) : M jsval :=
  fun env s =>
    match cache_get (st_cache s) endpoint with
    | Some v => (Done v, s)
    | None =>
        match new_reliable_Connection endpoint env s with
        | (Done connection, s1) =>
            (Done (JConn connection),
             st_set_cache s1 (<[endpoint := connection]> (st_cache s1)))
        | (Thrown e, s1) => (Thrown e, s1)
        | (Returned, s1) => (Returned, s1)
        end
    end.

(* ------------------------------------------------------------------ *)
(** ** [utils/connection]: [withRetry] *)

(** [error instanceof Error ? error : new Error(String(error))] *)
Definition as_Error (error : exn) : M exn :=
  match error with
  | JSError _ _ => mret error
  | JSValue r => new_Error r
  end.

(** [throw lastError || new Error('Operation failed after retries')] *)
Definition throw_last {A} (lastError : option exn) : M A :=
  match lastError with
  | Some e => throw e
  | None => throw_new_Error "Operation failed after retries"
  end.

(** Delays are computed over the rationals (the delay values are not the
    subject of any property below). *)
Definition backoff_delay (baseDelay : Q) (attempt : nat) (r : Q) : Q :=
  (baseDelay * inject_Z (2 ^ Z.of_nat attempt) * ((1#2) + r * (1#2)))%Q.

(** The [for (let attempt = 0; attempt <= maxRetries; attempt++)] loop;
    [fuel] bounds the number of iterations that remain. *)
Fixpoint retry_loop {A} (fn : M A) (maxRetries : nat) (baseDelay : Q)
    (fuel attempt : nat) (lastError : option exn) : M A :=
  match fuel with
  | O => throw_last lastError
  | S fuel' =>
      if Nat.leb attempt maxRetries then
        try_catch fn (fun error =>
          lastError' ← as_Error error;
          (if Nat.ltb attempt maxRetries
           then r ← math_random; sleep (backoff_delay baseDelay attempt r)
           else mret tt);;
          retry_loop fn maxRetries baseDelay fuel' (S attempt) (Some lastError'))
      else throw_last lastError
  end.

Definition withRetry {A} (fn : M A) (maxRetries : nat) (baseDelay : Q) : M A :=
  retry_loop fn maxRetries baseDelay (S maxRetries) 0 None.

(** A wrapped zero-argument operation whose successive invocations end as
    [script] says (indexed by the network call number). *)
Definition scripted {A} (script : nat -> result A) : M A :=
  net_call COp (fun _ n => script n) (fun _ => VOp).

(* ------------------------------------------------------------------ *)
(** ** Notifications ([react-hot-toast]) and browser storage *)

(** [toast.loading(msg)] returns a fresh toast id. *)
Definition toast_loading_new (msg : content) : M toast_id :=
  fun env s =>
    let id := TIdGen (st_nobj s) in
    (Done id, st_log (st_next_obj s) (EToast KLoading msg None)).

Definition toast_loading (msg : content) (id : option toast_id) : M unit :=
  log_event (EToast KLoading msg id).

Definition toast_error (msg : content) (id : option toast_id) : M unit :=
  log_event (EToast KError msg id).

Definition toast_success (msg : content) (id : option toast_id) : M unit :=
  log_event (EToast KSuccess msg id).

Definition toast_dismiss (id : toast_id) : M unit := log_event (EDismiss id).

(** [toast.info(...)]: the [toast] export of react-hot-toast has no [info]
    member, so the call throws a [TypeError]; its message comes from the
    environment. *)
Definition toast_info {A} (msg : content) : M A :=
  fun env s => throw_new_Error (env_toast_info_error env) env s.

Definition localStorage_setItem (k v : string) : M unit := log_event (EStorage k v).

(* ------------------------------------------------------------------ *)
(** ** The chain SDK and the wallet adapter *)

Definition new_PublicKey (s : string) : M addr :=
  fun env st =>
    match env_parse_pubkey env s with
    | Some a => (Done a, st)
    | None => throw_new_Error "Invalid public key input" env st
    end.

Definition getAssociatedTokenAddress (mint owner : addr) : M addr :=
  fun env st =>
    match env_ata env mint owner with
    | Some a => (Done a, st)
    | None => throw_new_Error "" env st
    end.

Definition getMint (mint : addr) : M Z :=
  net_call (CGetMint mint) (fun env n => env_getMint env n mint) VMint.

Definition getAccountInfo (a : addr) : M bool :=
  net_call (CGetAccountInfo a) (fun env n => env_getAccountInfo env n a) VAccount.

Definition getLatestBlockhash : M (string * Z) :=
  net_call CGetLatestBlockhash (fun env n => env_getLatestBlockhash env n)
    (fun p => VBlockhash (fst p) (snd p)).

Definition getMinimumBalanceForRentExemption (space : Z) : M Z :=
  net_call (CGetMinimumBalanceForRentExemption space)
    (fun env n => env_rent env n space) VLamports.

(** The wallet adapter's [sendTransaction(transaction, connection, opts)]. *)
Definition sendTransaction (t : tx) (signers : list addr) : M string :=
  net_call (CSendTransaction t signers)
    (fun env n => env_sendTransaction env n t) VSig.

Definition confirmTransaction (c : confirm_arg) : M (option string) :=
  net_call (CConfirm c) (fun env n => env_confirm env n c) VConfirm.

Definition requestAirdrop (a : addr) (lamports : Z) : M string :=
  net_call (CRequestAirdrop a lamports)
    (fun env n => env_requestAirdrop env n a lamports) VSig.

(** [web3.Keypair.generate()]: its public key. *)
Definition Keypair_generate : M addr :=
  fun env s => (Done (env_keypair env (st_nobj s)), st_next_obj s).

(* ------------------------------------------------------------------ *)
(** ** JavaScript numbers (IEEE 754 binary64) *)

Definition prec : Z := 53.
Definition emax : Z := 1024.

Definition number : Type := spec_float.

(** The double nearest to an integer. *)
Definition num_of_Z (n : Z) : number := binary_normalize prec emax n 0 false.

Definition js_mul (x y : number) : number := SFmul prec emax x y.
Definition js_div (x y : number) : number := SFdiv prec emax x y.

(** [Math.pow(10, d)]: the double nearest to 10^d. *)
Definition Math_pow10 (d : Z) : number :=
  if 0 <=? d then num_of_Z (10 ^ d)
  else js_div (num_of_Z 1) (num_of_Z (10 ^ (- d))).

Definition digit_value (c : ascii) : option Z :=
  let n := Z.of_nat (nat_of_ascii c) - 48 in
  if (0 <=? n) && (n <=? 9) then Some n else None.

(** The digits of an exponent, as an integer. *)
Fixpoint parse_digits (s : string) (acc : Z) (seen_digit : bool) : option Z :=
  match s with
  | EmptyString => if seen_digit then Some acc else None
  | String c rest =>
      match digit_value c with
      | Some d => parse_digits rest (acc * 10 + d) true
      | None => None
      end
  end.

(** An exponent: an optional sign, then digits. *)
Definition parse_exponent (s : string) : option Z :=
  match s with
  | String c rest =>
      if Ascii.eqb c "+" then parse_digits rest 0 false
      else if Ascii.eqb c "-" then option_map Z.opp (parse_digits rest 0 false)
      else parse_digits s 0 false
  | EmptyString => None
  end.

(** Digits with at most one decimal point, then an optional exponent
    ([e] or [E]): the integer the digits spell, the number of digits
    after the point, and the exponent. *)
Fixpoint parse_decimal (s : string) (acc : Z) (frac : option nat)
    (seen_digit : bool) : option (Z * nat * Z) :=
  match s with
  | EmptyString =>
      if seen_digit then Some (acc, match frac with Some k => k | None => O end, 0)
      else None
  | String c rest =>
      match digit_value c with
      | Some d => parse_decimal rest (acc * 10 + d) (option_map S frac) true
      | None =>
          if seen_digit && (Ascii.eqb c "e" || Ascii.eqb c "E") then
            match parse_exponent rest with
            | Some x => Some (acc, match frac with Some k => k | None => O end, x)
            | None => None
            end
          else
          match frac with
          | None => if Ascii.eqb c "." then parse_decimal rest acc (Some O) seen_digit
                    else None
          | Some _ => None
          end
      end
  end.

(** An unsigned numeral [m * 10^(x - k)]: its nearest double (exact
    rounding when [m] is below 2^53 and the scale is at most 10^22). *)
Definition unsigned_Number (s : string) : number :=
  match parse_decimal s 0 None false with
  | Some (m, k, x) =>
      let e := x - Z.of_nat k in
      if 0 <=? e then num_of_Z (m * 10 ^ e)
      else js_div (num_of_Z m) (num_of_Z (10 ^ (- e)))
  | None => S754_nan
  end.

(** [Number(s)] for the strings a number input holds (the HTML valid
    floating-point numbers, or [""]): [""] is 0; an optional [-], digits
    with an optional fraction and an optional exponent give the nearest
    double; any other string is treated as [NaN]. *)
Definition js_Number (s : string) : number :=
  if String.eqb s "" then S754_zero false else
  match s with
  | String c rest =>
      if Ascii.eqb c "-" then SFopp (unsigned_Number rest) else unsigned_Number s
  | EmptyString => S754_zero false
  end.

(** [Math.floor(x)]. *)
Definition js_floor (x : number) : number :=
  match x with
  | S754_finite sx mx ex =>
      if 0 <=? ex then x
      else num_of_Z (Z.div (cond_Zopp sx (Zpos mx)) (2 ^ (- ex)))
  | _ => x
  end.

(** The integer a double denotes, if it denotes one. *)
Definition number_to_integer (x : number) : option Z :=
  match x with
  | S754_zero _ => Some 0
  | S754_finite sx mx ex =>
      if 0 <=? ex then Some (cond_Zopp sx (Zpos mx * 2 ^ ex))
      else if Z.modulo (Zpos mx) (2 ^ (- ex)) =? 0
           then Some (cond_Zopp sx (Zpos mx / 2 ^ (- ex)))
           else None
  | _ => None
  end.

(** [BigInt(x)] on a number: a [RangeError] unless [x] is an integer.
    The spl-token builders apply it to an amount given as a number. *)
Definition js_BigInt (x : number) : M Z :=
  match number_to_integer x with
  | Some z => mret z
  | None => throw_new_Error "The number cannot be converted to a BigInt because it is not an integer"
  end.

(* ------------------------------------------------------------------ *)
(** ** Strings *)

Fixpoint str_includes (s sub : string) : bool :=
  String.prefix sub s ||
  match s with
  | EmptyString => false
  | String _ s' => str_includes s' sub
  end.

(** [s.slice(0, 4)] and [s.slice(-4)]. *)
Definition slice_first4 (s : string) : string := substring 0 4 s.
Definition slice_last4 (s : string) : string := substring (String.length s - 4) 4 s.

Definition is_empty (s : string) : bool := String.eqb s "".

(** [error instanceof Error ? prefix + error.message : fallback] *)
Definition message_or (prefix fallback : string) (e : exn) : string :=
  match e with
  | JSError _ m => (prefix +:+ m)%string
  | JSValue _ => fallback
  end.

(* ------------------------------------------------------------------ *)
(** ** Panels: the values a submit handler closes over

    A handler is the closure of one render: it sees the wallet's
    [publicKey] and the React state values of that render, and its
    [setX] calls only update the store ([st_store]) for later renders. *)

Record Props := mkProps {
  p_publicKey : option addr;
  p_endpoint : string;          (* connection.rpcEndpoint *)
  p_mintAddress : string;
  p_recipientAddress : string;
  p_amount : string;
  p_decimals : Z;
  p_tokenName : string;
  p_tokenSymbol : string;
  p_lastSignature : option string
}.

Definition connect_wallet_first : content := TText "Please connect your wallet first".

(** [SendToken.tsx]: [handleSendToken].  ([e.preventDefault()] and the
    console output have no effect on the model.) *)
Definition handleSendToken (p : Props) : M unit :=
  match p_publicKey p with
  | None => toast_error connect_wallet_first None;; early_return
  | Some publicKey =>
    if is_empty (p_mintAddress p) || is_empty (p_recipientAddress p)
       || is_empty (p_amount p)
    then toast_error (TText "Please fill in all fields") None;; early_return
    else
    set_state "isLoading" (UBool true);;
    toastId ← toast_loading_new (TText "Preparing transaction...");
    try_catch_finally
      (reliableConnection ← getReliableConnection (p_endpoint p);
       mintPubkey ← try_catch (new_PublicKey (p_mintAddress p)) (fun _ =>
         toast_error (TText "Invalid mint address format") (Some toastId);;
         early_return);
       recipientPubkey ← try_catch (new_PublicKey (p_recipientAddress p)) (fun _ =>
         toast_error (TText "Invalid recipient address format") (Some toastId);;
         early_return);
       actualDecimals ← try_catch
         (mintInfo ← withRetry (getMint mintPubkey) 3 1000;
          set_state "decimals" (UNum mintInfo);;
          mret mintInfo)
         (fun _ =>
          toast_error (TText "Could not verify token mint. Please check the address.")
            (Some toastId);;
          early_return);
       sourceTokenAddress ← getAssociatedTokenAddress mintPubkey publicKey;
       sourceAccountInfo ← getAccountInfo sourceTokenAddress;
       if negb sourceAccountInfo then
         toast_error (TText "You don't have a token account for this token")
           (Some toastId);;
         early_return
       else
       destinationTokenAddress ← getAssociatedTokenAddress mintPubkey recipientPubkey;
       let transaction := new_Transaction in
       destinationAccountInfo ← getAccountInfo destinationTokenAddress;
       let transaction :=
         if negb destinationAccountInfo
         then tx_add transaction
                (IxCreateATA publicKey destinationTokenAddress recipientPubkey mintPubkey)
         else transaction in
       let transferAmount := js_mul (js_Number (p_amount p)) (Math_pow10 actualDecimals) in
       amount ← js_BigInt (js_floor transferAmount);
       let transaction := tx_add transaction
         (IxTransfer sourceTokenAddress destinationTokenAddress publicKey amount) in
       '(blockhash, lastValidBlockHeight) ← getLatestBlockhash;
       let transaction := tx_set_feePayer (tx_set_blockhash transaction blockhash) publicKey in
       toast_loading (TText "Sending transaction...") (Some toastId);;
       signature ← sendTransaction transaction [];
       toast_loading (TText "Confirming transaction...") (Some toastId);;
       _ ← confirmTransaction (ConfirmByBlockhash signature blockhash lastValidBlockHeight);
       toast_success (TText ("Successfully sent " +:+ p_amount p +:+ " tokens to "
           +:+ slice_first4 (p_recipientAddress p) +:+ "..."
           +:+ slice_last4 (p_recipientAddress p))) (Some toastId);;
       set_state "amount" (UStr "");;
       set_state "recipientAddress" (UStr ""))
      (fun error =>
       toast_error (TText (message_or "Failed to send tokens: "
         "Failed to send tokens. Please check the addresses and try again." error))
         (Some toastId))
      (set_state "isLoading" (UBool false))
  end.

(** The [MintToken] component of [src/unnamed/part_002]: [handleMintToken].
    The amount is scaled with [decimals], the React state of the render
    the handler belongs to. *)
Definition handleMintToken_part002 (p : Props) : M unit :=
  match p_publicKey p with
  | None => toast_error connect_wallet_first None;; early_return
  | Some publicKey =>
    if is_empty (p_mintAddress p) || is_empty (p_amount p)
    then toast_error (TText "Please fill in all fields") None;; early_return
    else
    set_state "isLoading" (UBool true);;
    toastId ← toast_loading_new (TText "Preparing to mint tokens...");
    try_catch_finally
      (mintPubkey ← try_catch (new_PublicKey (p_mintAddress p)) (fun _ =>
         toast_error (TText "Invalid mint address format") None;;
         early_return);
       reliableConnection ← getReliableConnection (p_endpoint p);
       try_catch
         (mintInfo ← withRetry (getMint mintPubkey) 3 1000;
          set_state "decimals" (UNum mintInfo))
         (fun _ =>
          toast_error (TText "Could not verify mint. Please check the address and try again.")
            None;;
          early_return);;
       associatedTokenAddress ← getAssociatedTokenAddress mintPubkey publicKey;
       tokenAccount ← getAccountInfo associatedTokenAddress;
       let transaction := new_Transaction in
       let transaction :=
         if negb tokenAccount
         then tx_add transaction
                (IxCreateATA publicKey associatedTokenAddress publicKey mintPubkey)
         else transaction in
       let mintAmount :=
         if Z.eqb (p_decimals p) 0 then js_Number (p_amount p)
         else js_mul (js_Number (p_amount p)) (Math_pow10 (p_decimals p)) in
       amount ← js_BigInt mintAmount;
       let transaction := tx_add transaction
         (IxMintTo mintPubkey associatedTokenAddress publicKey amount) in
       '(blockhash, lastValidBlockHeight) ← getLatestBlockhash;
       let transaction := tx_set_feePayer (tx_set_blockhash transaction blockhash) publicKey in
       toast_loading (TText "Sending transaction...") (Some toastId);;
       signature ← sendTransaction transaction [];
       toast_loading (TText "Confirming transaction...") (Some toastId);;
       _ ← confirmTransaction (ConfirmByBlockhash signature blockhash lastValidBlockHeight);
       toast_success (TText ("Successfully minted " +:+ p_amount p +:+ " tokens"))
         (Some toastId);;
       set_state "amount" (UStr ""))
      (fun error =>
       toast_error (TText (message_or "Failed to mint tokens: "
         "Failed to mint tokens. Please check the mint address and try again." error))
         (Some toastId))
      (set_state "isLoading" (UBool false))
  end.

(** The [MintToken] component that follows [CreateToken] in
    [CreateToken.tsx]: [handleMintToken], scaling with the mint's
    decimals ([actualDecimals]). *)
Definition handleMintToken (p : Props) : M unit :=
  match p_publicKey p with
  | None => toast_error connect_wallet_first None;; early_return
  | Some publicKey =>
    if is_empty (p_mintAddress p) || is_empty (p_amount p)
    then toast_error (TText "Please fill in all fields") None;; early_return
    else
    set_state "isLoading" (UBool true);;
    toastId ← toast_loading_new (TText "Preparing to mint tokens...");
    try_catch_finally
      (mintPubkey ← try_catch (new_PublicKey (p_mintAddress p)) (fun _ =>
         toast_error (TText "Invalid mint address format") None;;
         early_return);
       reliableConnection ← getReliableConnection (p_endpoint p);
       actualDecimals ← try_catch
         (mintInfo ← withRetry (getMint mintPubkey) 3 1000;
          set_state "decimals" (UNum mintInfo);;
          mret mintInfo)
         (fun _ =>
          toast_error (TText "Could not verify mint. Please check the address and try again.")
            (Some toastId);;
          early_return);
       associatedTokenAddress ← getAssociatedTokenAddress mintPubkey publicKey;
       tokenAccount ← getAccountInfo associatedTokenAddress;
       let transaction := new_Transaction in
       let transaction :=
         if negb tokenAccount
         then tx_add transaction
                (IxCreateATA publicKey associatedTokenAddress publicKey mintPubkey)
         else transaction in
       let mintAmount := js_mul (js_Number (p_amount p)) (Math_pow10 actualDecimals) in
       amount ← js_BigInt (js_floor mintAmount);
       let transaction := tx_add transaction
         (IxMintTo mintPubkey associatedTokenAddress publicKey amount) in
       '(blockhash, lastValidBlockHeight) ← getLatestBlockhash;
       let transaction := tx_set_feePayer (tx_set_blockhash transaction blockhash) publicKey in
       toast_loading (TText "Sending transaction...") (Some toastId);;
       signature ← sendTransaction transaction [];
       toast_loading (TText "Confirming transaction...") (Some toastId);;
       _ ← confirmTransaction (ConfirmByBlockhash signature blockhash lastValidBlockHeight);
       toast_success (TText ("Successfully minted " +:+ p_amount p +:+ " tokens"))
         (Some toastId);;
       set_state "amount" (UStr ""))
      (fun error =>
       toast_error (TText (message_or "Failed to mint tokens: "
         "Failed to mint tokens. Please check the mint address and try again." error))
         (Some toastId))
      (set_state "isLoading" (UBool false))
  end.

(** A double-quote character. *)
Definition dquote : string := String (ascii_of_nat 34) EmptyString.

(** [token.MINT_SIZE] *)
Definition MINT_SIZE : Z := 82.

(** [new web3.Connection('https://api.mainnet-beta.solana.com',
    { commitment: 'confirmed', confirmTransactionInitialTimeout: 90000 })] *)
Definition new_token_Connection : M conn :=
  fun env s =>
    (Done (mkConn (st_nobj s) "https://api.mainnet-beta.solana.com" "confirmed"
             90000 false), st_next_obj s).

(** [if (lastSignature)]: a non-empty string. *)
Definition truthy_signature (o : option string) : option string :=
  match o with
  | Some sg => if is_empty sg then None else Some sg
  | None => None
  end.

(** The catch block of [handleCreateToken]. *)
Definition create_token_catch (p : Props) (error : exn) : M unit :=
  toast_dismiss (TIdNamed "creating-token");;
  match error with
  | JSError _ msg =>
      if str_includes msg "403" then
        toast_error (TText "Access forbidden. Try using a different wallet or network.") None
      else if str_includes msg "timeout" || str_includes msg "was not confirmed" then
        toast_error (TBlock [TText "Transaction may have succeeded but wasn't confirmed in time.";
                             TText "Check your wallet for the new token or try again."]) None;;
        match truthy_signature (p_lastSignature p) with
        | Some lastSignature =>
            let explorerUrl := ("https://explorer.solana.com/tx/" +:+ lastSignature)%string in
            toast_info (TBlock [TText "Check transaction status:";
                                TLink "View on Solana Explorer" explorerUrl])
        | None => mret tt
        end
      else if str_includes msg "insufficient funds" then
        toast_error (TText "Not enough SOL in your wallet for this operation.") None
      else toast_error (TText ("Failed to create token: " +:+ msg)) None
  | JSValue _ => toast_error (TText "Failed to create token. Please try again.") None
  end.

(** [CreateToken.tsx]: [handleCreateToken]. *)
Definition handleCreateToken (p : Props) : M unit :=
  match p_publicKey p with
  | None => toast_error connect_wallet_first None;; early_return
  | Some publicKey =>
    if is_empty (p_tokenName p) || is_empty (p_tokenSymbol p)
    then toast_error (TText "Please fill in all fields") None;; early_return
    else
    set_state "isLoading" (UBool true);;
    try_catch_finally
      (tokenConnection ← new_token_Connection;
       mintAccount ← Keypair_generate;
       let transaction := new_Transaction in
       lamports ← getMinimumBalanceForRentExemption MINT_SIZE;
       let transaction := tx_add transaction
         (IxCreateAccount publicKey mintAccount MINT_SIZE lamports) in
       let transaction := tx_add transaction
         (IxInitializeMint mintAccount (p_decimals p) publicKey publicKey) in
       associatedTokenAccount ← getAssociatedTokenAddress mintAccount publicKey;
       let transaction := tx_add transaction
         (IxCreateATA publicKey associatedTokenAccount publicKey mintAccount) in
       amount ← js_BigInt (js_mul (num_of_Z 1000000000) (Math_pow10 (p_decimals p)));
       let transaction := tx_add transaction
         (IxMintTo mintAccount associatedTokenAccount publicKey amount) in
       '(blockhash, _) ← getLatestBlockhash;
       let transaction := tx_set_feePayer (tx_set_blockhash transaction blockhash) publicKey in
       signature ← sendTransaction transaction [mintAccount];
       set_state "lastSignature" (UStr signature);;
       toast_loading (TText "Creating token... This may take a minute")
         (Some (TIdNamed "creating-token"));;
       confirmation ← confirmTransaction (ConfirmBySig signature "confirmed");
       match confirmation with
       | Some _ => throw_new_Error "Transaction confirmed but failed"
       | None => mret tt
       end;;
       toast_dismiss (TIdNamed "creating-token");;
       let mintAddress := mintAccount in
       localStorage_setItem "lastCreatedToken" mintAddress;;
       localStorage_setItem "lastTokenAccount" associatedTokenAccount;;
       toast_success (TBlock [TText "Token created successfully!";
                              TText ("Mint: " +:+ mintAddress);
                              TText ("Token Account: " +:+ associatedTokenAccount)]) None;;
       toast_info (A:=unit) (TBlock [TText "To see your token in Phantom:";
         TText "Open Phantom"; TText ("Click " +:+ dquote +:+ "Tokens" +:+ dquote);
         TText ("Click " +:+ dquote +:+ "+" +:+ dquote +:+ " button");
         TText "Paste your mint address"]);;
       set_state "tokenName" (UStr "");;
       set_state "tokenSymbol" (UStr "");;
       set_state "decimals" (UNum 9))
      (create_token_catch p)
      (set_state "isLoading" (UBool false))
  end.

(** [handleDecimalsChange]: [""] sets 0; otherwise [parseInt(value)] is
    stored when it lies in [0, 9]; [parsed] is [None] for [NaN]. *)
Definition handleDecimalsChange (value : string) (parsed : option Z) : M unit :=
  if is_empty value then set_state "decimals" (UNum 0)
  else match parsed with
       | Some n => if (0 <=? n) && (n <=? 9) then set_state "decimals" (UNum n) else mret tt
       | None => mret tt
       end.

(** [LAMPORTS_PER_SOL] *)
Definition LAMPORTS_PER_SOL : Z := 1000000000.

(** The [AirdropButton] component ([src/unnamed/part_004]): [handleAirdrop]. *)
Definition handleAirdrop (p : Props) : M unit :=
  match p_publicKey p with
  | None => toast_error connect_wallet_first None;; early_return
  | Some publicKey =>
    set_state "isAirdropping" (UBool true);;
    toastId ← toast_loading_new (TText "Requesting SOL airdrop...");
    try_catch_finally
      (signature ← requestAirdrop publicKey (1 * LAMPORTS_PER_SOL);
       _ ← confirmTransaction (ConfirmBySig signature "confirmed");
       toast_success (TText "Successfully received 1 SOL") (Some toastId))
      (fun _ =>
       toast_error (TText "Failed to request airdrop. The faucet may be rate-limited. Try again later.")
         (Some toastId))
      (set_state "isAirdropping" (UBool false))
  end.

(** The [SendToken] component of [src/unnamed/part_000]: [handleSendToken].
    The amount is passed as a number; the spl-token builder converts it
    with [BigInt]. *)
Definition handleSendToken_part000 (p : Props) : M unit :=
  match p_publicKey p with
  | None => toast_error connect_wallet_first None;; early_return
  | Some publicKey =>
    if is_empty (p_mintAddress p) || is_empty (p_recipientAddress p)
       || is_empty (p_amount p)
    then toast_error (TText "Please fill in all fields") None;; early_return
    else
    set_state "isLoading" (UBool true);;
    try_catch_finally
      (mintPubkey ← new_PublicKey (p_mintAddress p);
       recipientPubkey ← new_PublicKey (p_recipientAddress p);
       sourceTokenAddress ← getAssociatedTokenAddress mintPubkey publicKey;
       destinationTokenAddress ← getAssociatedTokenAddress mintPubkey recipientPubkey;
       let transaction := new_Transaction in
       destinationAccountInfo ← getAccountInfo destinationTokenAddress;
       let transaction :=
         if negb destinationAccountInfo
         then tx_add transaction
                (IxCreateATA publicKey destinationTokenAddress recipientPubkey mintPubkey)
         else transaction in
       amount ← js_BigInt (js_mul (js_Number (p_amount p)) (Math_pow10 9));
       let transaction := tx_add transaction
         (IxTransfer sourceTokenAddress destinationTokenAddress publicKey amount) in
       signature ← sendTransaction transaction [];
       _ ← confirmTransaction (ConfirmBySig signature "confirmed");
       toast_success (TText ("Successfully sent " +:+ p_amount p +:+ " tokens to "
           +:+ slice_first4 (p_recipientAddress p) +:+ "..."
           +:+ slice_last4 (p_recipientAddress p))) None;;
       set_state "amount" (UStr "");;
       set_state "recipientAddress" (UStr ""))
      (fun _ =>
       toast_error (TText "Failed to send tokens. Please check the addresses and try again.")
         None)
      (set_state "isLoading" (UBool false))
  end.

(** The [MintToken] component of [src/unnamed/part_001]: [handleMintToken]. *)
Definition handleMintToken_part001 (p : Props) : M unit :=
  match p_publicKey p with
  | None => toast_error connect_wallet_first None;; early_return
  | Some publicKey =>
    if is_empty (p_mintAddress p) || is_empty (p_amount p)
    then toast_error (TText "Please fill in all fields") None;; early_return
    else
    set_state "isLoading" (UBool true);;
    try_catch_finally
      (mintPubkey ← new_PublicKey (p_mintAddress p);
       associatedTokenAddress ← getAssociatedTokenAddress mintPubkey publicKey;
       tokenAccount ← getAccountInfo associatedTokenAddress;
       let transaction := new_Transaction in
       let transaction :=
         if negb tokenAccount
         then tx_add transaction
                (IxCreateATA publicKey associatedTokenAddress publicKey mintPubkey)
         else transaction in
       amount ← js_BigInt (js_mul (js_Number (p_amount p)) (Math_pow10 9));
       let transaction := tx_add transaction
         (IxMintTo mintPubkey associatedTokenAddress publicKey amount) in
       signature ← sendTransaction transaction [];
       _ ← confirmTransaction (ConfirmBySig signature "confirmed");
       toast_success (TText ("Successfully minted " +:+ p_amount p +:+ " tokens")) None;;
       set_state "amount" (UStr ""))
      (fun _ =>
       toast_error (TText "Failed to mint tokens. Please check the mint address and try again.")
         None)
      (set_state "isLoading" (UBool false))
  end.
(* ------------------------------------------------------------------ *)
(** ** Trace measures *)

Definition is_op_call (e : event) : bool :=
  match e with ENet COp _ => true | _ => false end.

Definition is_sleep (e : event) : bool :=
  match e with ESleep _ => true | _ => false end.

Definition count (f : event -> bool) (evs : list event) : nat :=
  length (List.filter f evs).

(** How [withRetry] reports the error [e] seen on the last attempt. *)
Definition reraised_as (e e' : exn) : Prop :=
  match e with
  | JSError _ _ => e' = e
  | JSValue r => exists oid, e' = JSError oid r
  end.

(** A default environment and state, for concrete runs. *)
Definition env0 : Env :=
  mkEnv (fun s => Some s) (fun m o => Some (m +:+ "/" +:+ o)%string)
    (fun _ _ => ROk 9) (fun _ _ => ROk true) (fun _ => ROk ("bh"%string, 100))
    (fun _ _ => ROk 1461600) (fun _ _ => ROk "sig"%string)
    (fun _ _ => ROk None) (fun _ _ _ => ROk "sig"%string)
    (fun _ => 0%Q) (fun _ => "mintKey"%string) "toast.info is not a function".

Definition st0 : St := mkSt [] 0 0 0 ∅ ∅.

(** An idle panel: neither loading nor airdropping. *)
Definition st0_idle : St :=
  mkSt [] 0 0 0 ∅ (<["isLoading" := UBool false]> (<["isAirdropping" := UBool false]> ∅)).



(* ------------------------------------------------------------------ *)
(** ** Monitors over the events of one handler invocation *)


(** The events a [withRetry(() => token.getMint(...))] call produces. *)
Definition retry_event (e : event) : Prop :=
  match e with
  | ENet (CGetMint _) _ => True
  | ESleep _ => True
  | _ => False
  end.

(** Confirmation uses the blockhash fetched before submission: every
    confirmation carries the signature of the preceding successful submit
    and the blockhash / expiry height of the last [getLatestBlockhash]
    answer, fetched before that submit; a successful submit is always
    followed by a confirmation. *)
Fixpoint confirm_ok (bh : option (string * Z)) (sent : option string)
    (pending : bool) (evs : list event) : Prop :=
  match evs with
  | [] => pending = false
  | ENet CGetLatestBlockhash (ROk (VBlockhash b l)) :: r =>
      confirm_ok (Some (b, l)) None pending r
  | ENet (CSendTransaction _ _) (ROk (VSig sg)) :: r =>
      confirm_ok bh (Some sg) true r
  | ENet (CConfirm (ConfirmByBlockhash sg b l)) _ :: r =>
      sent = Some sg /\ bh = Some (b, l) /\ confirm_ok bh sent false r
  | ENet (CConfirm (ConfirmBySig _ _)) _ :: r => False
  | _ :: r => confirm_ok bh sent pending r
  end.

(** Every confirmation is by signature alone. *)
Fixpoint confirms_by_signature (evs : list event) : Prop :=
  match evs with
  | [] => True
  | ENet (CConfirm (ConfirmByBlockhash _ _ _)) _ :: _ => False
  | _ :: r => confirms_by_signature r
  end.

(** Every submission that returned a signature (a wallet submit or an
    airdrop request) is confirmed before the run ends, and every
    confirmation is by the signature of the latest submission alone, with
    ['confirmed'] commitment.  [sent] is the signature of the latest
    submission, [pending] says it is not confirmed yet. *)
Fixpoint sig_confirm_ok (sent : option string) (pending : bool) (evs : list event) : Prop :=
  match evs with
  | [] => pending = false
  | ENet (CSendTransaction _ _) (ROk (VSig sg)) :: r => sig_confirm_ok (Some sg) true r
  | ENet (CRequestAirdrop _ _) (ROk (VSig sg)) :: r => sig_confirm_ok (Some sg) true r
  | ENet (CConfirm (ConfirmBySig sg c)) _ :: r =>
      sent = Some sg /\ c = "confirmed"%string /\ sig_confirm_ok sent false r
  | ENet (CConfirm (ConfirmByBlockhash _ _ _)) _ :: _ => False
  | _ :: r => sig_confirm_ok sent pending r
  end.

Definition primary_target (ix : instruction) : option addr :=
  match ix with
  | IxTransfer _ d _ _ => Some d
  | IxMintTo _ d _ _ => Some d
  | _ => None
  end.

Definition creates_ata_for (ix : instruction) (d : addr) : Prop :=
  match ix with
  | IxCreateATA _ a _ _ => a = d
  | _ => False
  end.

(** What the panel last learned about the existence of each account. *)
Definition learn (known : addr -> option bool) (a : addr) (ex : bool) : addr -> option bool :=
  fun a' => if String.eqb a' a then Some ex else known a'.

(** The submitted transaction is [primary] when the target account of the
    primary instruction exists, and [createATA(target); primary] when it
    does not. *)
Definition tx_ata_ok (known : addr -> option bool) (t : tx) : Prop :=
  match tx_instructions t with
  | [ix] => exists d, primary_target ix = Some d /\ known d = Some true
  | [c; ix] => exists d, primary_target ix = Some d /\ known d = Some false
                         /\ creates_ata_for c d
  | _ => False
  end.

Fixpoint ata_ok (known : addr -> option bool) (evs : list event) : Prop :=
  match evs with
  | [] => True
  | ENet (CGetAccountInfo a) (ROk (VAccount ex)) :: r => ata_ok (learn known a ex) r
  | ENet (CSendTransaction t _) _ :: r => tx_ata_ok known t /\ ata_ok known r
  | _ :: r => ata_ok known r
  end.

(** At most one submit, and every confirmation follows it. *)
Fixpoint sends_ok (sent : bool) (evs : list event) : Prop :=
  match evs with
  | [] => True
  | ENet (CSendTransaction _ _) _ :: r => sent = false /\ sends_ok true r
  | ENet (CConfirm _) _ :: r => sent = true /\ sends_ok sent r
  | _ :: r => sends_ok sent r
  end.

Fixpoint content_has_link (c : content) : bool :=
  match c with
  | TText _ => false
  | TLink _ _ => true
  | TBlock cs => (fix any (l : list content) : bool :=
                    match l with
                    | [] => false
                    | c' :: l' => content_has_link c' || any l'
                    end) cs
  end.

(** A notification that links to the block explorer. *)
Definition explorer_link_event (e : event) : bool :=
  match e with
  | EToast _ c _ => content_has_link c
  | _ => false
  end.

Fixpoint no_explorer_link (evs : list event) : Prop :=
  match evs with
  | [] => True
  | e :: r => explorer_link_event e = false /\ no_explorer_link r
  end.

(** A property of every submitted transaction. *)
Fixpoint all_sent (P : tx -> Prop) (evs : list event) : Prop :=
  match evs with
  | [] => True
  | ENet (CSendTransaction t _) _ :: r => P t /\ all_sent P r
  | _ :: r => all_sent P r
  end.

(** The raw amounts of the transfer and mint-to instructions of the
    submitted transactions. *)
Definition ix_amount (ix : instruction) : list Z :=
  match ix with
  | IxTransfer _ _ _ a => [a]
  | IxMintTo _ _ _ a => [a]
  | _ => []
  end.

Fixpoint sent_amounts (evs : list event) : list Z :=
  match evs with
  | [] => []
  | ENet (CSendTransaction t _) _ :: r =>
      flat_map ix_amount (tx_instructions t) ++ sent_amounts r
  | _ :: r => sent_amounts r
  end.

(** The transaction of the create panel: a new mint account, its
    initialisation with [decimals], the creator's associated account, and
    the initial supply minted to that account. *)
Definition create_tx_ok (env : Env) (owner : addr) (decimals : Z) (t : tx) : Prop :=
  exists mint lamports ata,
    env_ata env mint owner = Some ata /\
    tx_instructions t =
      [IxCreateAccount owner mint MINT_SIZE lamports;
       IxInitializeMint mint decimals owner owner;
       IxCreateATA owner ata owner mint;
       IxMintTo mint ata owner (1000000000 * 10 ^ decimals)]%list.

(** The outcome is not an exception escaping the handler. *)
Definition not_thrown {A} (o : outcome A) : Prop :=
  match o with Thrown _ => False | _ => True end.

(* ------------------------------------------------------------------ *)
(** ** Concrete inputs *)

(** A connected wallet [owner] submitting 1000 tokens of [mint0]; the
    render-time [decimals] state is 9, the initial [useState(9)]. *)
Definition props_submit : Props :=
  mkProps (Some "owner"%string) "https://api.devnet.solana.com" "mint0" "recipient"
    "1000" 9 "" "" None.

(** The same form with no wallet connected. *)
Definition props_disconnected : Props :=
  mkProps None "https://api.devnet.solana.com" "mint0" "recipient" "1000" 9
    "Token" "TKN" None.

(** The create form: name, symbol and 9 decimals. *)
Definition props_create : Props :=
  mkProps (Some "owner"%string) "https://api.devnet.solana.com" "" "" "" 9
    "Token" "TKN" None.

(** A mint with 0 decimals. *)
Definition env_mint_decimals0 : Env :=
  mkEnv (env_parse_pubkey env0) (env_ata env0) (fun _ _ => ROk 0)
    (env_getAccountInfo env0) (env_getLatestBlockhash env0) (env_rent env0)
    (env_sendTransaction env0) (env_confirm env0) (env_requestAirdrop env0)
    (env_random env0) (env_keypair env0)
    (env_toast_info_error env0).

(** Confirmation of the submitted transaction times out. *)
Definition env_confirm_timeout : Env :=
  mkEnv (env_parse_pubkey env0) (env_ata env0) (env_getMint env0)
    (env_getAccountInfo env0) (env_getLatestBlockhash env0) (env_rent env0)
    (env_sendTransaction env0)
    (fun n _ => RErr (JSError 100 "Transaction was not confirmed in 30.00 seconds: timeout"))
    (env_requestAirdrop env0) (env_random env0) (env_keypair env0)
    (env_toast_info_error env0).

(** An operation failing twice with a thrown string, then returning 7. *)
Definition busy_twice (n : nat) : result Z :=
  if Nat.ltb n 2 then RErr (JSValue "busy") else ROk 7.

(** An operation that always throws the string ['timeout']. *)
Definition always_timeout (n : nat) : result Z := RErr (JSValue "timeout").

(* ------------------------------------------------------------------ *)
(** ** Further monitors *)

(** A network or wallet call. *)
Definition is_net (e : event) : bool :=
  match e with ENet _ _ => true | _ => false end.

Definition is_toast (e : event) : bool :=
  match e with EToast _ _ _ => true | _ => false end.

(** The last notification event of a list of events. *)
Fixpoint last_toast (evs : list event) : option event :=
  match evs with
  | [] => None
  | e :: r =>
      match last_toast r with
      | Some t => Some t
      | None => if is_toast e then Some e else None
      end
  end.

Definition toast_id_eqb (a b : toast_id) : bool :=
  match a, b with
  | TIdGen n, TIdGen m => Nat.eqb n m
  | TIdNamed x, TIdNamed y => String.eqb x y
  | _, _ => false
  end.

(** The event updates or dismisses the notification [id]. *)
Definition mentions_toast (id : toast_id) (e : event) : bool :=
  match e with
  | EToast _ _ (Some i) => toast_id_eqb i id
  | EDismiss i => toast_id_eqb i id
  | _ => false
  end.

(** The sleeps of a run, in order. *)
Fixpoint sleeps (evs : list event) : list Q :=
  match evs with
  | [] => []
  | ESleep ms :: r => ms :: sleeps r
  | _ :: r => sleeps r
  end.

(** The mint and associated account created by a transaction: those of its
    first create-associated-account instruction. *)
Fixpoint created_pair (ixs : list instruction) : option (addr * addr) :=
  match ixs with
  | [] => None
  | IxCreateATA _ ata _ mint :: _ => Some (mint, ata)
  | _ :: r => created_pair r
  end.

(** Browser storage is written only after a confirmation that reported no
    error, and the stored token and token account are the mint and
    associated account of the submitted transaction. *)
Fixpoint storage_ok (sent : option (addr * addr)) (confirmed : bool)
    (evs : list event) : Prop :=
  match evs with
  | [] => True
  | ENet (CSendTransaction t _) _ :: r =>
      storage_ok (created_pair (tx_instructions t)) false r
  | ENet (CConfirm _) (ROk (VConfirm None)) :: r => storage_ok sent true r
  | EStorage k v :: r =>
      confirmed = true
      /\ (k = "lastCreatedToken"%string -> exists a, sent = Some (v, a))
      /\ (k = "lastTokenAccount"%string -> exists m, sent = Some (m, v))
      /\ storage_ok sent confirmed r
  | _ :: r => storage_ok sent confirmed r
  end.

(** The airdrop requests of a run: recipient and lamports. *)
Fixpoint airdrops (evs : list event) : list (addr * Z) :=
  match evs with
  | [] => []
  | ENet (CRequestAirdrop a l) _ :: r => (a, l) :: airdrops r
  | _ :: r => airdrops r
  end.

(** The first account lookup of the run found an account, and every
    submitted transfer moves tokens out of that account.  [first] is
    [None] before the first lookup, [Some None] when it found nothing or
    failed, and [Some (Some a)] when it found the account [a]. *)
Fixpoint source_checked (first : option (option addr)) (evs : list event) : Prop :=
  match evs with
  | [] => True
  | ENet (CGetAccountInfo a) res :: r =>
      match first with
      | None =>
          source_checked
            (Some (match res with ROk (VAccount true) => Some a | _ => None end)) r
      | Some _ => source_checked first r
      end
  | ENet (CSendTransaction t _) _ :: r =>
      Forall (fun ix => match ix with
                        | IxTransfer src _ _ _ => first = Some (Some src)
                        | _ => True
                        end) (tx_instructions t)
      /\ source_checked first r
  | _ :: r => source_checked first r
  end.

(** An environment whose public-key constructor rejects the string
    ["not-a-key"]. *)
Definition env_bad_mint : Env :=
  mkEnv (fun a => if String.eqb a "not-a-key" then None else Some a)
    (env_ata env0) (env_getMint env0) (env_getAccountInfo env0)
    (env_getLatestBlockhash env0) (env_rent env0) (env_sendTransaction env0)
    (env_confirm env0) (env_requestAirdrop env0) (env_random env0) (env_keypair env0)
    (env_toast_info_error env0).

(** A filled-in form whose mint address is not a public key. *)
Definition props_bad_mint : Props :=
  mkProps (Some "owner"%string) "https://api.devnet.solana.com" "not-a-key" "recipient"
    "1000" 9 "" "" None.

(** An error notification. *)
Definition is_error_toast (e : event) : bool :=
  match e with EToast KError _ _ => true | _ => false end.

(** Every success notification is followed, later in the run, by an error
    notification. *)
Fixpoint success_then_error (evs : list event) : Prop :=
  match evs with
  | [] => True
  | EToast KSuccess _ _ :: r => existsb is_error_toast r = true /\ success_then_error r
  | _ :: r => success_then_error r
  end.

(** A [setState] of one of the fields of the create form. *)
Definition resets_create_form (e : event) : bool :=
  match e with
  | ESetState k _ =>
      String.eqb k "tokenName" || String.eqb k "tokenSymbol" || String.eqb k "decimals"
  | _ => false
  end.
(* ------------------------------------------------------------------ *)
(** ** Properties of [withRetry] *)

Section Retry.
Context {A : Type} (script : nat -> result A) (maxRetries : nat) (baseDelay : Q).

Lemma count_app f l1 l2 : count f (l1 ++ l2) = (count f l1 + count f l2)%nat.
Proof. unfold count. rewrite List.filter_app, length_app. reflexivity. Qed.

Lemma as_Error_state e env s :
  exists e' s', as_Error e env s = (Done e', s') /\ st_trace s' = st_trace s
    /\ st_ncalls s' = st_ncalls s /\ reraised_as e e'.
Proof.
  destruct e as [oid msg | r]; simpl.
  - eexists _, _. split; [reflexivity|]. simpl. auto.
  - eexists _, _. split; [reflexivity|]. simpl. eauto.
Qed.

Lemma retry_loop_succeeds v env : forall j fuel attempt le s,
  (attempt + fuel = S maxRetries)%nat ->
  (attempt + j <= maxRetries)%nat ->
  (forall i, (i < j)%nat -> exists e, script (st_ncalls s + i)%nat = RErr e) ->
  script (st_ncalls s + j)%nat = ROk v ->
  exists evs s',
    retry_loop (scripted script) maxRetries baseDelay fuel attempt le env s
      = (Done v, s')
    /\ st_trace s' = st_trace s ++ evs
    /\ count is_sleep evs = j /\ count is_op_call evs = S j
    /\ last evs = Some (ENet COp (ROk VOp)).
Proof.
  induction j as [|j IH]; intros fuel attempt le s Hfuel Hj Hfail Hok.
  - destruct fuel as [|fuel]; [lia|]. simpl.
    rewrite (proj2 (Nat.leb_le attempt maxRetries)) by lia.
    unfold try_catch, scripted, net_call. rewrite Nat.add_0_r in Hok. rewrite Hok.
    eexists [_], _. split; [reflexivity|]. simpl. auto.
  - destruct fuel as [|fuel]; [lia|]. simpl.
    rewrite (proj2 (Nat.leb_le attempt maxRetries)) by lia.
    destruct (Hfail 0%nat) as [e He]; [lia|]. rewrite Nat.add_0_r in He.
    unfold try_catch at 1, scripted at 1, net_call at 1. rewrite He.
    set (s1 := st_next_call (st_log s (ENet COp (RErr e)))).
    unfold mbind, M_bind at 1.
    destruct (as_Error_state e env s1) as (e' & s2 & Has & Htr2 & Hn2 & _).
    rewrite Has.
    rewrite (proj2 (Nat.ltb_lt attempt maxRetries)) by lia.
    cbn [mbind M_bind math_random sleep log_event].
    set (s3 := st_log (st_next_draw s2) _).
    destruct (IH fuel (S attempt) (Some e') s3) as (evs & s' & Hrun & Htr & Hsl & Hop & Hlast).
    + lia.
    + lia.
    + intros i Hi. subst s3. simpl. rewrite Hn2. subst s1. simpl.
      destruct (Hfail (S i)) as [e0 He0]; [lia|]. exists e0.
      rewrite <- He0. f_equal. lia.
    + subst s3. simpl. rewrite Hn2. subst s1. simpl.
      rewrite <- Hok. f_equal. lia.
    + rewrite Hrun. exists ([ENet COp (RErr e); ESleep (backoff_delay baseDelay attempt
        (env_random env (st_ndraws s2)))] ++ evs), s'.
      split; [reflexivity|].
      rewrite Htr. subst s3. simpl. rewrite Htr2. subst s1. simpl.
      rewrite <- !app_assoc. split; [reflexivity|].
      unfold count in *. simpl. rewrite Hsl, Hop. split; [reflexivity|].
      split; [reflexivity|]. destruct evs as [|e0 evs]; [discriminate|]. rewrite <- Hlast. reflexivity.
Qed.

Lemma retry_loop_fails env : forall j fuel attempt le s,
  (attempt + fuel = S maxRetries)%nat ->
  (attempt + j = maxRetries)%nat ->
  (forall i, (i <= j)%nat -> exists e, script (st_ncalls s + i)%nat = RErr e) ->
  exists evs s' e',
    retry_loop (scripted script) maxRetries baseDelay fuel attempt le env s
      = (Thrown e', s')
    /\ st_trace s' = st_trace s ++ evs
    /\ count is_sleep evs = j /\ count is_op_call evs = S j
    /\ (forall e, script (st_ncalls s + j)%nat = RErr e -> reraised_as e e').
Proof.
  induction j as [|j IH]; intros fuel attempt le s Hfuel Hj Hfail.
  - destruct fuel as [|fuel]; [lia|]. simpl.
    rewrite (proj2 (Nat.leb_le attempt maxRetries)) by lia.
    destruct (Hfail 0%nat) as [e He]; [lia|]. rewrite Nat.add_0_r in He.
    unfold try_catch at 1, scripted at 1, net_call at 1. rewrite He.
    unfold mbind, M_bind at 1.
    destruct (as_Error_state e env (st_next_call (st_log s (ENet COp (RErr e)))))
      as (e' & s2 & Has & Htr2 & Hn2 & Hre).
    rewrite Has.
    rewrite (proj2 (Nat.ltb_ge attempt maxRetries)) by lia.
    assert (fuel = 0%nat) as -> by lia.
    eexists [_], _, e'. split; [reflexivity|].
    rewrite Htr2. simpl. split; [reflexivity|]. split; [reflexivity|].
    split; [reflexivity|].
    intros e0 He0. rewrite Nat.add_0_r, He in He0. injection He0 as <-. exact Hre.
  - destruct fuel as [|fuel]; [lia|]. simpl.
    rewrite (proj2 (Nat.leb_le attempt maxRetries)) by lia.
    destruct (Hfail 0%nat) as [e He]; [lia|]. rewrite Nat.add_0_r in He.
    unfold try_catch at 1, scripted at 1, net_call at 1. rewrite He.
    set (s1 := st_next_call (st_log s (ENet COp (RErr e)))).
    unfold mbind, M_bind at 1.
    destruct (as_Error_state e env s1) as (e' & s2 & Has & Htr2 & Hn2 & _).
    rewrite Has.
    rewrite (proj2 (Nat.ltb_lt attempt maxRetries)) by lia.
    cbn [mbind M_bind math_random sleep log_event].
    set (s3 := st_log (st_next_draw s2) _).
    assert (Hn3 : st_ncalls s3 = S (st_ncalls s)).
    { subst s3. simpl. rewrite Hn2. reflexivity. }
    destruct (IH fuel (S attempt) (Some e') s3) as (evs & s' & e'' & Hrun & Htr & Hsl & Hop & Hre).
    + lia.
    + lia.
    + intros i Hi. rewrite Hn3.
      destruct (Hfail (S i)) as [e0 He0]; [lia|]. exists e0.
      rewrite <- He0. f_equal. lia.
    + rewrite Hrun. exists ([ENet COp (RErr e); ESleep (backoff_delay baseDelay attempt
        (env_random env (st_ndraws s2)))] ++ evs), s', e''.
      split; [reflexivity|].
      rewrite Htr. subst s3. simpl. rewrite Htr2. subst s1. simpl.
      rewrite <- !app_assoc. split; [reflexivity|].
      unfold count in *. simpl. rewrite Hsl, Hop. split; [reflexivity|].
      split; [reflexivity|].
      intros e0 He0. apply Hre. rewrite Hn3. rewrite <- He0. f_equal. lia.
Qed.

End Retry.

(* ------------------------------------------------------------------ *)
(** ** The waits of [withRetry] *)

Lemma sleeps_app l1 l2 : sleeps (l1 ++ l2) = sleeps l1 ++ sleeps l2.
Proof.
  induction l1 as [|e l1 IH]; [reflexivity|]. destruct e; cbn; rewrite ?IH; reflexivity.
Qed.

Lemma backoff_delay_bounds b a r :
  (0 <= b)%Q -> (0 <= r < 1)%Q ->
  (b * inject_Z (2 ^ Z.of_nat a) * (1#2) <= backoff_delay b a r
   <= b * inject_Z (2 ^ Z.of_nat a))%Q.
Proof.
  intros Hb [Hr0 Hr1]. unfold backoff_delay.
  assert (HP : (0 <= inject_Z (2 ^ Z.of_nat a))%Q).
  { change 0%Q with (inject_Z 0). rewrite <- Zle_Qle. apply Z.pow_nonneg. lia. }
  assert (HX : (0 <= b * inject_Z (2 ^ Z.of_nat a))%Q) by (apply Qmult_le_0_compat; auto).
  split; nra.
Qed.

Lemma inject_pow2_S a :
  inject_Z (2 ^ Z.of_nat (S a)) = (2 * inject_Z (2 ^ Z.of_nat a))%Q.
Proof.
  rewrite Nat2Z.inj_succ, Z.pow_succ_r by lia. rewrite inject_Z_mult. reflexivity.
Qed.

(** The waits of a list bounded by [b * 2^(a+i)], at most [n - a] of them,
    add up to at most [b * (2^n - 2^a)]. *)
Lemma sum_doubling_bound (b : Q) (n : nat) : forall (l : list Q) (a : nat),
  (0 <= b)%Q -> (a <= n)%nat -> (length l <= n - a)%nat ->
  (forall i d, nth_error l i = Some d -> d <= b * inject_Z (2 ^ Z.of_nat (a + i)))%Q ->
  (fold_right Qplus 0 l
   <= b * (inject_Z (2 ^ Z.of_nat n) - inject_Z (2 ^ Z.of_nat a)))%Q.
Proof.
  induction l as [|d l IH]; intros a Hb Han Hlen Hbd.
  - cbn. assert (Hmono : (inject_Z (2 ^ Z.of_nat a) <= inject_Z (2 ^ Z.of_nat n))%Q).
    { rewrite <- Zle_Qle. apply Z.pow_le_mono_r; lia. }
    nra.
  - cbn [fold_right]. cbn [length] in Hlen.
    assert (Hd := Hbd 0%nat d eq_refl). rewrite Nat.add_0_r in Hd.
    assert (Hl : (fold_right Qplus 0 l
                  <= b * (inject_Z (2 ^ Z.of_nat n) - inject_Z (2 ^ Z.of_nat (S a))))%Q).
    { apply IH; [exact Hb | lia | lia |]. intros i d' H.
      replace (S a + i)%nat with (a + S i)%nat by lia. exact (Hbd (S i) d' H). }
    rewrite inject_pow2_S in Hl. nra.
Qed.

Section Backoff.
Context {A : Type} (fn : M A) (maxRetries : nat) (baseDelay : Q) (env : Env).
Hypothesis Hb : (0 <= baseDelay)%Q.
Hypothesis Hr : forall n, (0 <= env_random env n < 1)%Q.
Hypothesis Hfn : forall s, exists evs,
  st_trace (snd (fn env s)) = st_trace s ++ evs /\ sleeps evs = [].

Lemma throw_last_trace {B} le s : st_trace (snd (@throw_last B le env s)) = st_trace s.
Proof. destruct le; reflexivity. Qed.

Lemma retry_loop_sleeps : forall fuel attempt le s, exists evs,
  st_trace (snd (retry_loop fn maxRetries baseDelay fuel attempt le env s))
    = st_trace s ++ evs
  /\ (length (sleeps evs) <= maxRetries - attempt)%nat
  /\ forall i d, nth_error (sleeps evs) i = Some d ->
       (baseDelay * inject_Z (2 ^ Z.of_nat (attempt + i)) * (1#2) <= d
        <= baseDelay * inject_Z (2 ^ Z.of_nat (attempt + i)))%Q.
Proof.
  induction fuel as [|fuel IH]; intros attempt le s.
  - exists []. rewrite app_nil_r. cbn [retry_loop]. rewrite throw_last_trace.
    split; [reflexivity|]. split; [cbn; lia|]. intros [|i] d; discriminate.
  - cbn [retry_loop]. destruct (Nat.leb attempt maxRetries) eqn:Hle.
    2:{ exists []. rewrite app_nil_r, throw_last_trace.
        split; [reflexivity|]. split; [cbn; lia|]. intros [|i] d; discriminate. }
    apply Nat.leb_le in Hle.
    unfold try_catch at 1.
    destruct (Hfn s) as (evs1 & Htr1 & Hsl1).
    destruct (fn env s) as [o s1] eqn:Hf. cbn [snd] in Htr1.
    destruct o as [a|e|].
    + exists evs1. rewrite Hsl1. split; [exact Htr1|]. split; [cbn; lia|].
      intros [|i] d; discriminate.
    + unfold mbind, M_bind at 1.
      destruct (as_Error_state e env s1) as (e' & s2 & Has & Htr2 & _ & _).
      rewrite Has.
      destruct (Nat.ltb attempt maxRetries) eqn:Hlt.
      * apply Nat.ltb_lt in Hlt.
        cbn [mbind M_bind math_random sleep log_event].
        set (r := env_random env (st_ndraws s2)).
        set (s3 := st_log (st_next_draw s2) (ESleep (backoff_delay baseDelay attempt r))).
        destruct (IH (S attempt) (Some e') s3) as (evs & Htr & Hlen & Hbd).
        exists (evs1 ++ ESleep (backoff_delay baseDelay attempt r) :: evs).
        rewrite sleeps_app, Hsl1. cbn [sleeps app].
        split.
        { rewrite Htr. subst s3. cbn. rewrite Htr2, Htr1, <- !app_assoc. reflexivity. }
        split; [cbn [length]; lia|].
        intros [|i] d Hi.
        -- injection Hi as <-. rewrite Nat.add_0_r. apply backoff_delay_bounds; [exact Hb | apply Hr].
        -- cbn in Hi. rewrite <- Nat.add_succ_comm. exact (Hbd i d Hi).
      * apply Nat.ltb_ge in Hlt.
        cbn [mbind M_bind mret M_ret].
        destruct (IH (S attempt) (Some e') s2) as (evs & Htr & Hlen & _).
        assert (Hnil : sleeps evs = []) by (destruct (sleeps evs); [reflexivity|cbn in Hlen; lia]).
        exists (evs1 ++ evs). rewrite sleeps_app, Hsl1, Hnil.
        split.
        { rewrite Htr, Htr2, Htr1, <- app_assoc. reflexivity. }
        split; [cbn; lia|]. intros [|i] d; discriminate.
    + exists evs1. rewrite Hsl1. split; [exact Htr1|]. split; [cbn; lia|].
      intros [|i] d; discriminate.
Qed.

End Backoff.

Lemma timer_wait_small (d : Q) :
  (0 <= d)%Q -> (d < inject_Z (2 ^ 31))%Q ->
  (inject_Z (timer_wait d) <= d < inject_Z (timer_wait d) + 1)%Q.
Proof.
  destruct d as [n den]. unfold timer_wait; cbn [Qnum Qden].
  unfold Qle, Qlt; cbn [Qnum Qden inject_Z]. intros H0 H1.
  assert (Hn : 0 <= n) by lia.
  rewrite Z.quot_div_nonneg by lia.
  assert (Ht0 : 0 <= n / Z.pos den) by (apply Z.div_pos; lia).
  assert (Ht1 : Z.pos den * (n / Z.pos den) <= n) by (apply Z.mul_div_le; lia).
  assert (Ht2 : n < Z.pos den * Z.succ (n / Z.pos den)) by (apply Z.mul_succ_div_gt; lia).
  assert (Ht3 : n / Z.pos den < 2 ^ 31) by nia.
  rewrite Z.mod_small by lia. rewrite (proj2 (Z.ltb_lt _ _) Ht3).
  unfold Qle, Qlt, Qplus; cbn [Qnum Qden inject_Z]. split; nia.
Qed.



(* ------------------------------------------------------------------ *)
(** ** The retried mint lookup only adds lookups and sleeps *)

Lemma retry_loop_getMint_shape m maxRetries baseDelay env : forall fuel attempt le s,
  exists o s' evs,
    retry_loop (getMint m) maxRetries baseDelay fuel attempt le env s = (o, s')
    /\ st_trace s' = st_trace s ++ evs /\ Forall retry_event evs
    /\ st_store s' = st_store s /\ st_cache s' = st_cache s /\ o <> Returned.
Proof.
  induction fuel as [|fuel IH]; intros attempt le s.
  - destruct le as [e|]; simpl.
    + eexists _, _, []. rewrite app_nil_r. repeat split; try constructor. discriminate.
    + eexists _, _, []. rewrite app_nil_r. repeat split; try constructor. discriminate.
  - simpl. destruct (Nat.leb attempt maxRetries).
    + unfold try_catch at 1, getMint at 1, net_call at 1.
      destruct (env_getMint env (st_ncalls s) m) as [d|e].
      * eexists _, _, [_]. split; [reflexivity|]. simpl.
        repeat split; try repeat constructor. discriminate.
      * set (s1 := st_next_call (st_log s (ENet (CGetMint m) (RErr e)))).
        destruct (as_Error_state e env s1) as (e' & s2 & Has & Htr2 & _).
        unfold mbind, M_bind at 1. rewrite Has.
        assert (Hs2 : st_store s2 = st_store s1 /\ st_cache s2 = st_cache s1).
        { destruct e; simpl in Has; injection Has as _ <-; simpl; auto. }
        destruct (Nat.ltb attempt maxRetries); cbn [mbind M_bind math_random sleep log_event mret M_ret].
        -- set (s3 := st_log (st_next_draw s2) _).
           destruct (IH (S attempt) (Some e') s3) as (o & s' & evs & Hrun & Htr & Hf & Hst & Hc & Hno).
           rewrite Hrun. exists o, s', (ENet (CGetMint m) (RErr e) :: ESleep
             (backoff_delay baseDelay attempt (env_random env (st_ndraws s2))) :: evs).
           split; [reflexivity|]. rewrite Htr. subst s3. simpl. rewrite Htr2. subst s1. simpl.
           rewrite <- !app_assoc. split; [reflexivity|].
           split; [repeat constructor; assumption|].
           rewrite Hst, Hc. simpl. destruct Hs2 as [-> ->]. simpl. auto.
        -- destruct (IH (S attempt) (Some e') s2) as (o & s' & evs & Hrun & Htr & Hf & Hst & Hc & Hno).
           rewrite Hrun. exists o, s', (ENet (CGetMint m) (RErr e) :: evs).
           split; [reflexivity|]. rewrite Htr, Htr2. subst s1. simpl.
           rewrite <- !app_assoc. split; [reflexivity|].
           split; [repeat constructor; assumption|].
           rewrite Hst, Hc. destruct Hs2 as [-> ->]. simpl. auto.
    + destruct le as [e|]; simpl.
      * eexists _, _, []. rewrite app_nil_r. repeat split; try constructor. discriminate.
      * eexists _, _, []. rewrite app_nil_r. repeat split; try constructor. discriminate.
Qed.

Lemma withRetry_getMint_shape m maxRetries baseDelay env s :
  exists o s' evs,
    withRetry (getMint m) maxRetries baseDelay env s = (o, s')
    /\ st_trace s' = st_trace s ++ evs /\ Forall retry_event evs
    /\ st_store s' = st_store s /\ st_cache s' = st_cache s /\ o <> Returned.
Proof. apply retry_loop_getMint_shape. Qed.

Lemma getReliableConnection_shape e env s :
  (exists v s', getReliableConnection e env s = (Done v, s')
    /\ st_trace s' = st_trace s /\ st_ncalls s' = st_ncalls s
    /\ st_store s' = st_store s)
  \/ (exists x s', getReliableConnection e env s = (Thrown x, s')
    /\ st_trace s' = st_trace s /\ st_ncalls s' = st_ncalls s
    /\ st_store s' = st_store s).
Proof.
  unfold getReliableConnection, new_reliable_Connection, assertEndpointUrl.
  destruct (cache_get (st_cache s) e); [left; eexists _, _; split; [reflexivity|]; auto|].
  destruct (endpoint_url_ok e); simpl; [left | right];
    (eexists _, _; split; [reflexivity|]; simpl; auto).
Qed.

Lemma getReliableConnection_ok_shape e env s :
  endpoint_url_ok e = true ->
  exists v s', getReliableConnection e env s = (Done v, s')
    /\ st_trace s' = st_trace s /\ st_ncalls s' = st_ncalls s
    /\ st_store s' = st_store s.
Proof.
  intros Hu. unfold getReliableConnection, new_reliable_Connection, assertEndpointUrl.
  destruct (cache_get (st_cache s) e); [eexists _, _; split; [reflexivity|]; auto|].
  rewrite Hu. simpl. eexists _, _; split; [reflexivity|]; simpl; auto.
Qed.

(** Monitors see through the events of a retried mint lookup. *)
Lemma confirm_ok_retry l r bh sent pending :
  Forall retry_event l -> confirm_ok bh sent pending (l ++ r) <-> confirm_ok bh sent pending r.
Proof.
  induction 1 as [|e l He Hl IH]; [reflexivity|].
  destruct e as [c rr| | | | |]; simpl in He; try contradiction; [destruct c; try contradiction|]; exact IH.
Qed.

Lemma confirms_by_signature_retry l r :
  Forall retry_event l -> confirms_by_signature (l ++ r) <-> confirms_by_signature r.
Proof.
  induction 1 as [|e l He Hl IH]; [reflexivity|].
  destruct e as [c rr| | | | |]; simpl in He; try contradiction; [destruct c; try contradiction|]; exact IH.
Qed.

Lemma ata_ok_retry l r known :
  Forall retry_event l -> ata_ok known (l ++ r) <-> ata_ok known r.
Proof.
  intros Hf. revert known. induction Hf as [|e l He Hl IH]; intros known; [reflexivity|].
  destruct e as [c rr| | | | |]; simpl in He; try contradiction; [destruct c; try contradiction|]; apply IH.
Qed.

Lemma sends_ok_retry l r sent :
  Forall retry_event l -> sends_ok sent (l ++ r) <-> sends_ok sent r.
Proof.
  induction 1 as [|e l He Hl IH]; [reflexivity|].
  destruct e as [c rr| | | | |]; simpl in He; try contradiction; [destruct c; try contradiction|]; exact IH.
Qed.

Lemma no_explorer_link_retry l r :
  Forall retry_event l -> no_explorer_link (l ++ r) <-> no_explorer_link r.
Proof.
  induction 1 as [|e l He Hl IH]; [reflexivity|].
  destruct e as [c rr| | | | |]; simpl in He; try contradiction; simpl; rewrite IH; tauto.
Qed.

Lemma all_sent_retry P l r :
  Forall retry_event l -> all_sent P (l ++ r) <-> all_sent P r.
Proof.
  induction 1 as [|e l He Hl IH]; [reflexivity|].
  destruct e as [c rr| | | | |]; simpl in He; try contradiction; [destruct c; try contradiction|]; exact IH.
Qed.

(* ------------------------------------------------------------------ *)
(** ** Symbolic runs of the panel handlers

    A handler is run on an arbitrary environment and state: every branch
    on an oracle answer, a parsed address or a numeric conversion is
    split, the retried mint lookup and the connection cache are replaced
    by their shape lemmas, and each resulting trace is checked against the
    monitors. *)

(** The initial supply [1000000000 * Math.pow(10, decimals)] is an exact
    integer for every [decimals] in [0, 9]. *)
Lemma initial_supply_exact d : 0 <= d <= 9 ->
  number_to_integer (js_mul (num_of_Z 1000000000) (Math_pow10 d))
  = Some (1000000000 * 10 ^ d).
Proof.
  intros Hd.
  assert (d = 0 \/ d = 1 \/ d = 2 \/ d = 3 \/ d = 4 \/ d = 5 \/ d = 6 \/ d = 7
          \/ d = 8 \/ d = 9) as Hc by lia.
  repeat destruct Hc as [-> | Hc]; [..| subst d]; vm_compute; reflexivity.
Qed.

Section Runs.

Local Opaque withRetry getReliableConnection js_Number js_mul js_floor Math_pow10
  number_to_integer num_of_Z is_empty str_includes slice_first4 slice_last4
  message_or String.append.

Ltac norm := cbv beta iota zeta delta [mbind M_bind mret M_ret set_state
  try_catch_finally try_catch toast_error toast_loading toast_success
  toast_loading_new toast_dismiss toast_info localStorage_setItem log_event
  new_PublicKey getAssociatedTokenAddress getAccountInfo sendTransaction
  confirmTransaction getLatestBlockhash getMinimumBalanceForRentExemption
  requestAirdrop Keypair_generate new_token_Connection net_call throw
  throw_new_Error new_Error early_return js_BigInt create_token_catch
  fst snd negb orb andb].

(** Split on the innermost pending branch. *)
Ltac destr_inner :=
  match goal with
  | |- context [withRetry (getMint ?m) ?a ?b ?env ?s] =>
      let o := fresh "o" in let s' := fresh "s" in let evs := fresh "evs" in
      let Hr := fresh "Hr" in let Htr := fresh "Htr" in let Hf := fresh "Hf" in
      let Hst := fresh "Hst" in let Hc := fresh "Hc" in let Hno := fresh "Hno" in
      destruct (withRetry_getMint_shape m a b env s)
        as (o & s' & evs & Hr & Htr & Hf & Hst & Hc & Hno);
      rewrite Hr; destruct o; try congruence
  | |- context [getReliableConnection ?e ?env ?s] =>
      let v := fresh "v" in let s' := fresh "s" in
      let Hr := fresh "Hr" in let Htr := fresh "Htr" in let Hn := fresh "Hn" in
      let Hst := fresh "Hst" in
      destruct (getReliableConnection_shape e env s)
        as [(v & s' & Hr & Htr & Hn & Hst) | (v & s' & Hr & Htr & Hn & Hst)];
      rewrite Hr
  | |- context [match ?x with _ => _ end] =>
      lazymatch x with
      | context [match _ with _ => _ end] => fail
      | negb ?y => destruct y eqn:?
      | _ => destruct x eqn:?
      end
  end.

Ltac run := repeat (destr_inner; norm).

Ltac st_simpl :=
  cbn [st_trace st_log st_next_call st_set_store st_next_obj st_next_draw st_set_cache].

(** Close the trace equation, leaving the monitors on the new events. *)
Ltac fin_trace :=
  st_simpl;
  repeat match goal with H : st_trace ?x = _ |- context [st_trace ?x] =>
    rewrite H; st_simpl end;
  eexists; split; [rewrite <- ?app_assoc; reflexivity|].

Ltac mon_retry :=
  repeat match goal with H : Forall retry_event ?l |- _ =>
    rewrite ?(ata_ok_retry l _ _ H), ?(confirm_ok_retry l _ _ _ _ H),
      ?(confirms_by_signature_retry l _ H), ?(sends_ok_retry l _ _ H),
      ?(no_explorer_link_retry l _ H), ?(all_sent_retry _ l _ H); clear H end.

Ltac solve_mon :=
  cbn; mon_retry; cbn;
  unfold tx_ata_ok, learn, creates_ata_for; cbn;
  repeat first [ split | eexists; split; [reflexivity|] | reflexivity
               | rewrite String.eqb_refl ].

Ltac sym h :=
  intros p env s; unfold h;
  destruct (p_publicKey p) as [pk|]; norm; run; fin_trace; solve_mon.

(** The monitors of the panels that confirm against the fetched blockhash. *)
Definition blockhash_panel_ok (evs : list event) : Prop :=
  ata_ok (fun _ => None) evs /\ confirm_ok None None false evs
  /\ sends_ok false evs /\ no_explorer_link evs.

(** The monitors of the panels that confirm by signature. *)
Definition signature_panel_ok (evs : list event) : Prop :=
  ata_ok (fun _ => None) evs /\ confirms_by_signature evs
  /\ sends_ok false evs /\ no_explorer_link evs.

Lemma handleSendToken_run p env s : exists evs,
  st_trace (snd (handleSendToken p env s)) = st_trace s ++ evs /\ blockhash_panel_ok evs.
Proof. revert p env s. unfold blockhash_panel_ok. sym handleSendToken. Qed.

Lemma handleMintToken_part002_run p env s : exists evs,
  st_trace (snd (handleMintToken_part002 p env s)) = st_trace s ++ evs
  /\ blockhash_panel_ok evs.
Proof. revert p env s. unfold blockhash_panel_ok. sym handleMintToken_part002. Qed.

Lemma handleMintToken_run p env s : exists evs,
  st_trace (snd (handleMintToken p env s)) = st_trace s ++ evs /\ blockhash_panel_ok evs.
Proof. revert p env s. unfold blockhash_panel_ok. sym handleMintToken. Qed.

Lemma handleSendToken_part000_run p env s : exists evs,
  st_trace (snd (handleSendToken_part000 p env s)) = st_trace s ++ evs
  /\ signature_panel_ok evs.
Proof. revert p env s. unfold signature_panel_ok. sym handleSendToken_part000. Qed.

Lemma handleMintToken_part001_run p env s : exists evs,
  st_trace (snd (handleMintToken_part001 p env s)) = st_trace s ++ evs
  /\ signature_panel_ok evs.
Proof. revert p env s. unfold signature_panel_ok. sym handleMintToken_part001. Qed.

Lemma handleAirdrop_run p env s : exists evs,
  st_trace (snd (handleAirdrop p env s)) = st_trace s ++ evs
  /\ confirms_by_signature evs /\ no_explorer_link evs.
Proof. revert p env s. sym handleAirdrop. Qed.


Lemma handleCreateToken_supply_run p env s pk :
  p_publicKey p = Some pk -> 0 <= p_decimals p <= 9 ->
  exists evs, st_trace (snd (handleCreateToken p env s)) = st_trace s ++ evs
    /\ all_sent (create_tx_ok env pk (p_decimals p)) evs.
Proof.
  intros Hpk Hd. unfold handleCreateToken. rewrite Hpk. norm.
  rewrite (initial_supply_exact _ Hd). run; fin_trace; solve_mon.
  all: unfold create_tx_ok; do 3 eexists; split; [eassumption | reflexivity].
Qed.

(** Further monitors see through the events of a retried mint lookup. *)
Lemma last_toast_retry l r :
  Forall retry_event l -> last_toast (l ++ r) = last_toast r.
Proof.
  induction 1 as [|e l He Hl IH]; [reflexivity|].
  cbn [app last_toast]. rewrite IH. destruct (last_toast r); [reflexivity|].
  destruct e as [c rr| | | | |]; simpl in He; try contradiction; reflexivity.
Qed.

Lemma forallb_retry (f : event -> bool) l r :
  (forall e, retry_event e -> f e = true) ->
  Forall retry_event l -> forallb f (l ++ r) = forallb f r.
Proof.
  intros Hf. induction 1 as [|e l He Hl IH]; [reflexivity|].
  cbn [app forallb]. rewrite IH, (Hf e He). reflexivity.
Qed.

Lemma storage_ok_retry l r sent confirmed :
  Forall retry_event l -> storage_ok sent confirmed (l ++ r) <-> storage_ok sent confirmed r.
Proof.
  induction 1 as [|e l He Hl IH]; [reflexivity|].
  destruct e as [c rr| | | | |]; simpl in He; try contradiction; [destruct c; try contradiction|]; exact IH.
Qed.

Lemma sig_confirm_ok_retry l r sent pending :
  Forall retry_event l -> sig_confirm_ok sent pending (l ++ r) <-> sig_confirm_ok sent pending r.
Proof.
  induction 1 as [|e l He Hl IH]; [reflexivity|].
  destruct e as [c rr| | | | |]; simpl in He; try contradiction; [destruct c; try contradiction|]; exact IH.
Qed.

Lemma airdrops_retry l r :
  Forall retry_event l -> airdrops (l ++ r) = airdrops r.
Proof.
  induction 1 as [|e l He Hl IH]; [reflexivity|].
  destruct e as [c rr| | | | |]; simpl in He; try contradiction; [destruct c; try contradiction|]; exact IH.
Qed.

Lemma source_checked_retry l r first :
  Forall retry_event l -> source_checked first (l ++ r) <-> source_checked first r.
Proof.
  induction 1 as [|e l He Hl IH]; [reflexivity|].
  destruct e as [c rr| | | | |]; simpl in He; try contradiction; [destruct c; try contradiction|]; exact IH.
Qed.

Ltac mon_retry2 :=
  repeat match goal with H : Forall retry_event ?l |- _ =>
    rewrite ?(last_toast_retry l _ H), ?(storage_ok_retry l _ _ _ H),
      ?(airdrops_retry l _ H), ?(source_checked_retry l _ _ H),
      ?(sig_confirm_ok_retry l _ _ _ H),
      ?(forallb_retry _ l _ (fun e He => match e as e0 return retry_event e0 -> _ with
                                         | ENet _ _ => fun _ => eq_refl
                                         | ESleep _ => fun _ => eq_refl
                                         | _ => fun H0 => False_rect _ H0 end He) H);
    clear H end.

Ltac solve_mon2 :=
  cbn; mon_retry2; cbn;
  repeat first [ split | eexists; split; [reflexivity|] | reflexivity
               | eexists; reflexivity | discriminate | intros [=] | progress subst ].

Lemma handleCreateToken_storage_run p env s : exists evs,
  st_trace (snd (handleCreateToken p env s)) = st_trace s ++ evs
  /\ storage_ok None false evs.
Proof.
  revert p env s. intros p env s; unfold handleCreateToken.
  destruct (p_publicKey p) as [pk|]; norm; run; fin_trace; solve_mon2.
Qed.

Lemma handleAirdrop_request_run p env s pk :
  p_publicKey p = Some pk ->
  exists evs, st_trace (snd (handleAirdrop p env s)) = st_trace s ++ evs
    /\ airdrops evs = [(pk, 1000000000)].
Proof.
  intros Hpk. unfold handleAirdrop. rewrite Hpk. norm. run; fin_trace; solve_mon2.
Qed.

Lemma handleSendToken_source_run p env s : exists evs,
  st_trace (snd (handleSendToken p env s)) = st_trace s ++ evs
  /\ source_checked None evs.
Proof.
  intros; unfold handleSendToken.
  destruct (p_publicKey p) as [pk|]; norm; run; fin_trace; solve_mon2;
  repeat constructor.
Qed.

Lemma handleSendToken_settles_run p env s pk :
  p_publicKey p = Some pk ->
  (is_empty (p_mintAddress p) || is_empty (p_recipientAddress p) || is_empty (p_amount p))
    = false ->
  exists evs, st_trace (snd (handleSendToken p env s)) = st_trace s ++ evs
    /\ exists k c, last_toast evs = Some (EToast k c (Some (TIdGen (st_nobj s))))
                  /\ k <> KLoading.
Proof.
  intros Hpk Hf. unfold handleSendToken. rewrite Hpk, Hf. norm. run; fin_trace; solve_mon2.
  all: do 2 eexists; split; [reflexivity | discriminate].
Qed.

Lemma mint_invalid_address_run (h : Props -> M unit) p env s pk :
  h = handleMintToken_part002 \/ h = handleMintToken ->
  p_publicKey p = Some pk ->
  (is_empty (p_mintAddress p) || is_empty (p_amount p)) = false ->
  env_parse_pubkey env (p_mintAddress p) = None ->
  exists evs, st_trace (snd (h p env s)) = st_trace s ++ evs
    /\ count is_net evs = 0%nat
    /\ forallb (fun e => negb (mentions_toast (TIdGen (st_nobj s)) e)) evs = true
    /\ last_toast evs = Some (EToast KError (TText "Invalid mint address format") None).
Proof.
  intros [-> | ->] Hpk Hf Hm;
    [unfold handleMintToken_part002 | unfold handleMintToken];
    rewrite Hpk, Hf; norm; rewrite Hm; norm; fin_trace; cbn;
    rewrite ?Nat.eqb_refl; repeat split.
Qed.

Lemma send_invalid_address_run p env s pk :
  p_publicKey p = Some pk ->
  endpoint_url_ok (p_endpoint p) = true ->
  (is_empty (p_mintAddress p) || is_empty (p_recipientAddress p) || is_empty (p_amount p))
    = false ->
  env_parse_pubkey env (p_mintAddress p) = None ->
  exists evs, st_trace (snd (handleSendToken p env s)) = st_trace s ++ evs
    /\ count is_net evs = 0%nat
    /\ last_toast evs
       = Some (EToast KError (TText "Invalid mint address format") (Some (TIdGen (st_nobj s)))).
Proof.
  intros Hpk Hu Hf Hm. unfold handleSendToken. rewrite Hpk, Hf. norm. rewrite Hm. norm.
  match goal with |- context [getReliableConnection ?e ?env ?s] =>
    destruct (getReliableConnection_ok_shape e env s Hu) as (v & s' & Hr & Htr & Hn & Hst);
    rewrite Hr end.
  run; fin_trace; cbn; repeat split.
Qed.

Lemma handleAirdrop_settles_run p env s pk :
  p_publicKey p = Some pk ->
  exists evs, st_trace (snd (handleAirdrop p env s)) = st_trace s ++ evs
    /\ exists k c, last_toast evs = Some (EToast k c (Some (TIdGen (st_nobj s))))
                  /\ k <> KLoading.
Proof.
  intros Hpk. unfold handleAirdrop. rewrite Hpk. norm. run; fin_trace; solve_mon2.
  all: do 2 eexists; split; [reflexivity | discriminate].
Qed.

Lemma sig_panels_run p env s :
  (exists evs, st_trace (snd (handleCreateToken p env s)) = st_trace s ++ evs
     /\ sig_confirm_ok None false evs)
  /\ (exists evs, st_trace (snd (handleAirdrop p env s)) = st_trace s ++ evs
     /\ sig_confirm_ok None false evs)
  /\ (exists evs, st_trace (snd (handleSendToken_part000 p env s)) = st_trace s ++ evs
     /\ sig_confirm_ok None false evs)
  /\ (exists evs, st_trace (snd (handleMintToken_part001 p env s)) = st_trace s ++ evs
     /\ sig_confirm_ok None false evs).
Proof.
  split; [|split; [|split]];
    [unfold handleCreateToken | unfold handleAirdrop | unfold handleSendToken_part000
    | unfold handleMintToken_part001];
    destruct (p_publicKey p) as [pk|]; norm; run; fin_trace; solve_mon2.
Qed.

Lemma handleCreateToken_form_run p env s : exists evs,
  st_trace (snd (handleCreateToken p env s)) = st_trace s ++ evs
  /\ success_then_error evs
  /\ forallb (fun e => negb (resets_create_form e)) evs = true.
Proof.
  unfold handleCreateToken. destruct (p_publicKey p) as [pk|]; norm; run; fin_trace; solve_mon2.
Qed.

End Runs.

(* ------------------------------------------------------------------ *)
(** ** The [finally] block of the handlers *)

Lemma try_catch_finally_sets {A} (body : M A) (handler : exn -> M A) k v env s :
  st_store (snd (try_catch_finally body handler (set_state k v) env s)) !! k = Some v.
Proof.
  unfold try_catch_finally. destruct (try_catch body handler env s) as [o s2].
  cbn. apply lookup_insert_eq.
Qed.

Lemma try_catch_finally_not_thrown {A} (body : M A) (handler : exn -> M A) k v env s :
  (forall e env s, not_thrown (fst (handler e env s))) ->
  not_thrown (fst (try_catch_finally body handler (set_state k v) env s)).
Proof.
  intros Hh. unfold try_catch_finally, try_catch.
  destruct (body env s) as [[a|e|] s1]; cbn; auto.
  specialize (Hh e env s1). destruct (handler e env s1) as [o s2]. exact Hh.
Qed.

(** Run a handler up to its [try]: the early returns leave the store
    untouched, the main path reaches [try_catch_finally]. *)
Ltac to_finally :=
  match goal with |- context [p_publicKey ?q] => destruct (p_publicKey q) end;
  [| cbn; split; [assumption | exact I]];
  repeat match goal with
  | |- context [if ?c then _ else _] =>
      lazymatch c with context [p_publicKey] => fail | _ => destruct c end
  end;
  cbv [mbind M_bind set_state toast_error toast_loading_new log_event early_return];
  cbn [st_store st_log st_set_store st_next_obj fst snd];
  try (split; [assumption | exact I]).

Ltac idle_main :=
  split; [apply try_catch_finally_sets
         | apply try_catch_finally_not_thrown; intros; exact I].

Lemma handleSendToken_idle p env s :
  st_store s !! "isLoading" = Some (UBool false) ->
  st_store (snd (handleSendToken p env s)) !! "isLoading" = Some (UBool false)
  /\ not_thrown (fst (handleSendToken p env s)).
Proof.
  intros H. unfold handleSendToken. to_finally. all: idle_main.
Qed.

Lemma handleMintToken_part002_idle p env s :
  st_store s !! "isLoading" = Some (UBool false) ->
  st_store (snd (handleMintToken_part002 p env s)) !! "isLoading" = Some (UBool false)
  /\ not_thrown (fst (handleMintToken_part002 p env s)).
Proof. intros H. unfold handleMintToken_part002. to_finally. all: idle_main. Qed.

Lemma handleMintToken_idle p env s :
  st_store s !! "isLoading" = Some (UBool false) ->
  st_store (snd (handleMintToken p env s)) !! "isLoading" = Some (UBool false)
  /\ not_thrown (fst (handleMintToken p env s)).
Proof. intros H. unfold handleMintToken. to_finally. all: idle_main. Qed.

Lemma handleAirdrop_idle p env s :
  st_store s !! "isAirdropping" = Some (UBool false) ->
  st_store (snd (handleAirdrop p env s)) !! "isAirdropping" = Some (UBool false)
  /\ not_thrown (fst (handleAirdrop p env s)).
Proof. intros H. unfold handleAirdrop. to_finally. all: idle_main. Qed.

Lemma handleSendToken_part000_idle p env s :
  st_store s !! "isLoading" = Some (UBool false) ->
  st_store (snd (handleSendToken_part000 p env s)) !! "isLoading" = Some (UBool false)
  /\ not_thrown (fst (handleSendToken_part000 p env s)).
Proof. intros H. unfold handleSendToken_part000. to_finally. all: idle_main. Qed.

Lemma handleMintToken_part001_idle p env s :
  st_store s !! "isLoading" = Some (UBool false) ->
  st_store (snd (handleMintToken_part001 p env s)) !! "isLoading" = Some (UBool false)
  /\ not_thrown (fst (handleMintToken_part001 p env s)).
Proof. intros H. unfold handleMintToken_part001. to_finally. all: idle_main. Qed.

Lemma handleCreateToken_idle p env s :
  st_store s !! "isLoading" = Some (UBool false) ->
  st_store (snd (handleCreateToken p env s)) !! "isLoading" = Some (UBool false).
Proof.
  intros H. unfold handleCreateToken.
  destruct (p_publicKey p) as [pk|]; [|exact H].
  destruct (is_empty (p_tokenName p) || is_empty (p_tokenSymbol p)); [exact H|].
  cbv [mbind M_bind set_state]. cbn [st_store st_set_store snd].
  apply try_catch_finally_sets.
Qed.

(* ------------------------------------------------------------------ *)
(** * The stated properties *)

(** Two failures, then success, with [maxRetries = 3]. *)
Example withRetry_two_failures :
  let '(o, s) := withRetry (scripted busy_twice) 3 1000 env0 st0 in
  o = Done 7 /\ count is_sleep (st_trace s) = 2%nat
  /\ count is_op_call (st_trace s) = 3%nat.
Proof. vm_compute. auto. Qed.

(** C2: if the wrapped operation fails on its first [k] attempts
    ([k <= maxRetries]) and succeeds on attempt [k + 1], [withRetry]
    returns the success value; the run makes exactly [k + 1] calls of the
    operation and exactly [k] sleeps, and its last event is the successful
    call, so no sleep follows the success. *)
Theorem withRetry_succeeds_after_k_failures {A} (script : nat -> result A)
    (maxRetries : nat) (baseDelay : Q) (k : nat) (v : A) (env : Env) (s : St) :
  (k <= maxRetries)%nat ->
  (forall i, (i < k)%nat -> exists e, script (st_ncalls s + i)%nat = RErr e) ->
  script (st_ncalls s + k)%nat = ROk v ->
  exists evs s',
    withRetry (scripted script) maxRetries baseDelay env s = (Done v, s')
    /\ st_trace s' = st_trace s ++ evs
    /\ count is_sleep evs = k /\ count is_op_call evs = S k
    /\ last evs = Some (ENet COp (ROk VOp)).
Proof.
  intros Hk Hfail Hok. unfold withRetry.
  apply retry_loop_succeeds; [lia | lia | exact Hfail | exact Hok].
Qed.

Lemma withRetry_succeeds_after_k_failures_witness :
  exists evs s',
    withRetry (scripted busy_twice) 3 1000 env0 st0 = (Done 7, s')
    /\ st_trace s' = st_trace st0 ++ evs
    /\ count is_sleep evs = 2%nat /\ count is_op_call evs = 3%nat
    /\ last evs = Some (ENet COp (ROk VOp)).
Proof.
  apply (withRetry_succeeds_after_k_failures busy_twice 3 1000 2 7 env0 st0).
  - lia.
  - intros i Hi. destruct i as [|[|i]]; [eexists; reflexivity | eexists; reflexivity | lia].
  - reflexivity.
Defined.

(** C3 (counterexample): an operation that always throws the string
    ['timeout'] does not see that value re-raised unchanged: [withRetry]
    rejects with a new [Error] object whose message is ['timeout']. *)
Lemma withRetry_wraps_thrown_string :
  fst (withRetry (scripted always_timeout) 3 1000 env0 st0) = Thrown (JSError 3 "timeout")
  /\ JSError 3 "timeout" <> JSValue "timeout".
Proof. split; [vm_compute; reflexivity | discriminate]. Qed.

(** C3 (amended): if the wrapped operation fails on all [maxRetries + 1]
    attempts, [withRetry] makes exactly [maxRetries + 1] calls and
    [maxRetries] sleeps, then rejects with the error of the last attempt:
    the same object when it is an [Error] instance, and otherwise a new
    [Error] whose message is the thrown value converted to a string. *)
Theorem withRetry_fails_after_all_attempts {A} (script : nat -> result A)
    (maxRetries : nat) (baseDelay : Q) (env : Env) (s : St) :
  (forall i, (i <= maxRetries)%nat -> exists e, script (st_ncalls s + i)%nat = RErr e) ->
  exists evs s' e',
    withRetry (scripted script) maxRetries baseDelay env s = (Thrown e', s')
    /\ st_trace s' = st_trace s ++ evs
    /\ count is_sleep evs = maxRetries /\ count is_op_call evs = S maxRetries
    /\ (forall e, script (st_ncalls s + maxRetries)%nat = RErr e -> reraised_as e e').
Proof.
  intros Hfail. unfold withRetry.
  apply retry_loop_fails; [lia | lia | exact Hfail].
Qed.

Lemma withRetry_fails_after_all_attempts_witness :
  exists evs s' e',
    withRetry (scripted always_timeout) 3 1000 env0 st0 = (Thrown e', s')
    /\ st_trace s' = st_trace st0 ++ evs
    /\ count is_sleep evs = 3%nat /\ count is_op_call evs = 4%nat
    /\ (forall e, always_timeout (st_ncalls st0 + 3)%nat = RErr e -> reraised_as e e').
Proof.
  apply (withRetry_fails_after_all_attempts always_timeout 3 1000 env0 st0).
  intros i Hi. eexists. reflexivity.
Defined.




(** C6: with no wallet connected, every submit handler only shows the
    error notification "Please connect your wallet first" and returns:
    no network call, no state update, no other event. *)
Theorem submit_without_wallet (p : Props) (env : Env) (s : St) :
  p_publicKey p = None ->
  let r := (Returned, st_log s (EToast KError connect_wallet_first None)) in
  handleSendToken p env s = r /\ handleMintToken_part002 p env s = r
  /\ handleMintToken p env s = r /\ handleCreateToken p env s = r
  /\ handleAirdrop p env s = r /\ handleSendToken_part000 p env s = r
  /\ handleMintToken_part001 p env s = r.
Proof.
  intros Hp. unfold handleSendToken, handleMintToken_part002, handleMintToken,
    handleCreateToken, handleAirdrop, handleSendToken_part000, handleMintToken_part001.
  rewrite Hp. repeat split.
Qed.

Lemma submit_without_wallet_witness :
  p_publicKey props_disconnected = None
  /\ handleSendToken props_disconnected env0 st0
     = (Returned, st_log st0 (EToast KError connect_wallet_first None)).
Proof.
  split; [reflexivity|].
  exact (proj1 (submit_without_wallet props_disconnected env0 st0 eq_refl)).
Defined.

(** C1 (divergence): the [MintToken] panel of [part_002] scales the amount
    with the [decimals] state of its render, not with the decimals of the
    mint it has just fetched.  On the first submit ([decimals] still the
    initial 9) for a mint with 0 decimals and the amount "1000", it mints
    1000000000000 raw units, where [floor(1000 * 10^0) = 1000]; the send
    panel of [SendToken.tsx] and the [MintToken] panel of
    [CreateToken.tsx], which scale with the fetched decimals, use 1000 on
    the same input. *)
Theorem mint_part002_uses_render_decimals :
  sent_amounts (st_trace (snd (handleMintToken_part002 props_submit env_mint_decimals0 st0)))
    = [1000000000000]
  /\ sent_amounts (st_trace (snd (handleMintToken props_submit env_mint_decimals0 st0)))
    = [1000]
  /\ sent_amounts (st_trace (snd (handleSendToken props_submit env_mint_decimals0 st0)))
    = [1000].
Proof. vm_compute. auto. Qed.

(** C5: in every run of the send and mint panels, each submitted
    transaction is the transfer / mint-to instruction alone when the
    panel's last lookup found the target associated account, and
    [createAssociatedTokenAccount(target)] followed by that instruction
    when the lookup found no account. *)
Theorem ata_created_only_when_missing (p : Props) (env : Env) (s : St) :
  (exists evs, st_trace (snd (handleSendToken p env s)) = st_trace s ++ evs
     /\ ata_ok (fun _ => None) evs)
  /\ (exists evs, st_trace (snd (handleMintToken_part002 p env s)) = st_trace s ++ evs
     /\ ata_ok (fun _ => None) evs)
  /\ (exists evs, st_trace (snd (handleMintToken p env s)) = st_trace s ++ evs
     /\ ata_ok (fun _ => None) evs)
  /\ (exists evs, st_trace (snd (handleSendToken_part000 p env s)) = st_trace s ++ evs
     /\ ata_ok (fun _ => None) evs)
  /\ (exists evs, st_trace (snd (handleMintToken_part001 p env s)) = st_trace s ++ evs
     /\ ata_ok (fun _ => None) evs).
Proof.
  destruct (handleSendToken_run p env s) as (e1 & H1 & M1 & _).
  destruct (handleMintToken_part002_run p env s) as (e2 & H2 & M2 & _).
  destruct (handleMintToken_run p env s) as (e3 & H3 & M3 & _).
  destruct (handleSendToken_part000_run p env s) as (e4 & H4 & M4 & _).
  destruct (handleMintToken_part001_run p env s) as (e5 & H5 & M5 & _).
  repeat split; eauto.
Qed.

(** C7 (counterexample): the create panel confirms its transaction by
    signature alone ([confirmTransaction(signature, 'confirmed')]), not
    with the blockhash and [lastValidBlockHeight] fetched before
    submission. *)
Lemma create_confirms_by_signature :
  ~ confirm_ok None None false (st_trace (snd (handleCreateToken props_create env0 st0))).
Proof. vm_compute. exact (fun H => H). Qed.

(** C7 (amended): the send panel of [SendToken.tsx] and the [MintToken]
    panels of [part_002] and [CreateToken.tsx] confirm every submitted
    transaction with its signature and the blockhash and
    [lastValidBlockHeight] of the last [getLatestBlockhash] answer before
    the submit.  The create, airdrop and [part_000] / [part_001] panels
    confirm by signature alone: each confirmation names the signature of
    the last submit (for the airdrop, of the airdrop request) with
    commitment ['confirmed'], and a submitted signature that the handler
    does not confirm before it ends is only possible when the run ends
    (by an exception) right after the submit. *)
Theorem confirmation_strategy (p : Props) (env : Env) (s : St) :
  (exists evs, st_trace (snd (handleSendToken p env s)) = st_trace s ++ evs
     /\ confirm_ok None None false evs)
  /\ (exists evs, st_trace (snd (handleMintToken_part002 p env s)) = st_trace s ++ evs
     /\ confirm_ok None None false evs)
  /\ (exists evs, st_trace (snd (handleMintToken p env s)) = st_trace s ++ evs
     /\ confirm_ok None None false evs)
  /\ (exists evs, st_trace (snd (handleCreateToken p env s)) = st_trace s ++ evs
     /\ sig_confirm_ok None false evs)
  /\ (exists evs, st_trace (snd (handleAirdrop p env s)) = st_trace s ++ evs
     /\ sig_confirm_ok None false evs)
  /\ (exists evs, st_trace (snd (handleSendToken_part000 p env s)) = st_trace s ++ evs
     /\ sig_confirm_ok None false evs)
  /\ (exists evs, st_trace (snd (handleMintToken_part001 p env s)) = st_trace s ++ evs
     /\ sig_confirm_ok None false evs).
Proof.
  destruct (handleSendToken_run p env s) as (e1 & H1 & _ & M1 & _).
  destruct (handleMintToken_part002_run p env s) as (e2 & H2 & _ & M2 & _).
  destruct (handleMintToken_run p env s) as (e3 & H3 & _ & M3 & _).
  destruct (sig_panels_run p env s) as (C4 & C5 & C6 & C7).
  repeat split; eauto.
Qed.



(** C9: whatever the outcome of a submit — success, a validation failure or
    an error in the [try] block — the loading flag is [false] afterwards if
    it was before: the [finally] block resets it.  The send, mint and
    airdrop handlers never reject (their [catch] blocks only notify).  The
    create handler's [catch] block can itself reject (its explorer hint
    calls [toast.info]); the rejection is reported to the console only,
    after the flag is reset. *)
Theorem loading_flag_reset (p : Props) (env : Env) (s : St) :
  st_store s !! "isLoading" = Some (UBool false) ->
  st_store s !! "isAirdropping" = Some (UBool false) ->
  (st_store (snd (handleSendToken p env s)) !! "isLoading" = Some (UBool false)
     /\ not_thrown (fst (handleSendToken p env s)))
  /\ (st_store (snd (handleMintToken_part002 p env s)) !! "isLoading" = Some (UBool false)
     /\ not_thrown (fst (handleMintToken_part002 p env s)))
  /\ (st_store (snd (handleMintToken p env s)) !! "isLoading" = Some (UBool false)
     /\ not_thrown (fst (handleMintToken p env s)))
  /\ st_store (snd (handleCreateToken p env s)) !! "isLoading" = Some (UBool false)
  /\ (st_store (snd (handleAirdrop p env s)) !! "isAirdropping" = Some (UBool false)
     /\ not_thrown (fst (handleAirdrop p env s)))
  /\ (st_store (snd (handleSendToken_part000 p env s)) !! "isLoading" = Some (UBool false)
     /\ not_thrown (fst (handleSendToken_part000 p env s)))
  /\ (st_store (snd (handleMintToken_part001 p env s)) !! "isLoading" = Some (UBool false)
     /\ not_thrown (fst (handleMintToken_part001 p env s))).
Proof.
  intros Hl Ha.
  split; [apply handleSendToken_idle; exact Hl|].
  split; [apply handleMintToken_part002_idle; exact Hl|].
  split; [apply handleMintToken_idle; exact Hl|].
  split; [apply handleCreateToken_idle; exact Hl|].
  split; [apply handleAirdrop_idle; exact Ha|].
  split; [apply handleSendToken_part000_idle; exact Hl|].
  apply handleMintToken_part001_idle; exact Hl.
Qed.

Lemma loading_flag_reset_witness :
  st_store st0_idle !! "isLoading" = Some (UBool false)
  /\ st_store st0_idle !! "isAirdropping" = Some (UBool false)
  /\ st_store (snd (handleSendToken props_submit env_confirm_timeout st0_idle))
       !! "isLoading" = Some (UBool false).
Proof.
  split; [reflexivity|]. split; [reflexivity|].
  exact (proj1 (proj1 (loading_flag_reset props_submit env_confirm_timeout st0_idle
    eq_refl eq_refl))).
Defined.

(** C10: with a wallet connected and [decimals] in [0, 9], every
    transaction the create panel submits is [createAccount(mint)],
    [initializeMint(mint, decimals)], the creation of the creator's
    associated account, and the mint-to of
    [1000000000 * 10^decimals] raw units (one billion whole tokens) to
    that account.  The decimals input only ever stores a value in
    [0, 9]. *)
Theorem create_mints_initial_supply :
  (forall (p : Props) (env : Env) (s : St) (pk : addr),
     p_publicKey p = Some pk -> 0 <= p_decimals p <= 9 ->
     exists evs, st_trace (snd (handleCreateToken p env s)) = st_trace s ++ evs
       /\ all_sent (create_tx_ok env pk (p_decimals p)) evs)
  /\ (forall (value : string) (parsed : option Z) (env : Env) (s : St) (n : Z),
     st_store (snd (handleDecimalsChange value parsed env s)) !! "decimals" = Some (UNum n) ->
     st_store s !! "decimals" = Some (UNum n) \/ 0 <= n <= 9).
Proof.
  split.
  - intros p env s pk Hpk Hd. exact (handleCreateToken_supply_run p env s pk Hpk Hd).
  - intros value parsed env s n. unfold handleDecimalsChange.
    destruct (is_empty value).
    + cbn. rewrite lookup_insert_eq. intros [= <-]. right. lia.
    + destruct parsed as [m|]; [|cbn; auto].
      destruct ((0 <=? m) && (m <=? 9)) eqn:Hm; [|cbn; auto].
      cbn. rewrite lookup_insert_eq. intros [= <-]. right.
      apply andb_prop in Hm as [H1 H2]. apply Z.leb_le in H1, H2. lia.
Qed.

Lemma create_mints_initial_supply_witness :
  p_publicKey props_create = Some "owner"%string /\ 0 <= p_decimals props_create <= 9
  /\ exists evs, st_trace (snd (handleCreateToken props_create env0 st0)) = st_trace st0 ++ evs
       /\ all_sent (create_tx_ok env0 "owner" (p_decimals props_create)) evs.
Proof.
  assert (Hpk : p_publicKey props_create = Some "owner"%string) by reflexivity.
  assert (Hd : 0 <= p_decimals props_create <= 9) by (cbn; lia).
  split; [exact Hpk|]. split; [exact Hd|].
  exact (proj1 create_mints_initial_supply props_create env0 st0 "owner" Hpk Hd).
Defined.

(** X1: after a successful creation the create panel calls [toast.info], which
    react-hot-toast does not provide: the [TypeError] lands in the panel's
    own [catch] block.  In every run of the create panel, each success
    notification is followed by an error notification, and the handler
    never calls the setters of [tokenName], [tokenSymbol] or [decimals]:
    the form is not cleared. *)
Theorem create_success_then_error_form_kept (p : Props) (env : Env) (s : St) :
  exists evs, st_trace (snd (handleCreateToken p env s)) = st_trace s ++ evs
    /\ success_then_error evs
    /\ forallb (fun e => negb (resets_create_form e)) evs = true.
Proof. exact (handleCreateToken_form_run p env s). Qed.

(** X2: [withRetry] only waits between attempts: when the wrapped operation
    never sleeps and [Math.random()] lies in [0, 1), the run waits at most
    [maxRetries] times, the wait after the failed attempt [i] lies between
    [baseDelay * 2^i / 2] and [baseDelay * 2^i] milliseconds, and all the
    waits together last at most [baseDelay * (2^maxRetries - 1)]
    milliseconds. *)
Theorem withRetry_backoff_bounds {A} (fn : M A) (maxRetries : nat) (baseDelay : Q)
    (env : Env) (s : St) :
  (0 <= baseDelay)%Q ->
  (forall n, 0 <= env_random env n < 1)%Q ->
  (forall s0, exists evs,
     st_trace (snd (fn env s0)) = st_trace s0 ++ evs /\ sleeps evs = []) ->
  exists evs, st_trace (snd (withRetry fn maxRetries baseDelay env s)) = st_trace s ++ evs
    /\ (length (sleeps evs) <= maxRetries)%nat
    /\ (forall i d, nth_error (sleeps evs) i = Some d ->
          baseDelay * inject_Z (2 ^ Z.of_nat i) * (1#2) <= d
          <= baseDelay * inject_Z (2 ^ Z.of_nat i))%Q
    /\ (fold_right Qplus 0 (sleeps evs)
          <= baseDelay * (inject_Z (2 ^ Z.of_nat maxRetries) - 1))%Q
    /\ ((baseDelay * inject_Z (2 ^ Z.of_nat maxRetries) < inject_Z (2 ^ 32))%Q ->
        forall i d, nth_error (sleeps evs) i = Some d ->
          (inject_Z (timer_wait d) <= d < inject_Z (timer_wait d) + 1)%Q).
Proof.
  intros Hb Hr Hfn.
  destruct (retry_loop_sleeps fn maxRetries baseDelay env Hb Hr Hfn (S maxRetries) 0 None s)
    as (evs & Htr & Hlen & Hbd).
  rewrite Nat.sub_0_r in Hlen.
  exists evs. split; [exact Htr|]. split; [exact Hlen|]. split; [exact Hbd|]. split.
  - change 1%Q with (inject_Z (2 ^ Z.of_nat 0)).
    apply sum_doubling_bound; [exact Hb | lia | rewrite Nat.sub_0_r; exact Hlen |].
    intros i d Hi. apply (Hbd i d Hi).
  - intros Hcap i d Hi. destruct (Hbd i d Hi) as [Hlo Hhi]. cbn [Nat.add] in Hlo, Hhi.
    assert (Hil : (i < maxRetries)%nat).
    { assert (i < length (sleeps evs))%nat by (apply nth_error_Some; congruence). lia. }
    assert (HP : (0 <= inject_Z (2 ^ Z.of_nat i))%Q).
    { change 0%Q with (inject_Z 0). rewrite <- Zle_Qle. apply Z.pow_nonneg. lia. }
    assert (Hmono : (inject_Z (2 ^ Z.of_nat (S i)) <= inject_Z (2 ^ Z.of_nat maxRetries))%Q).
    { rewrite <- Zle_Qle. apply Z.pow_le_mono_r; lia. }
    rewrite inject_pow2_S in Hmono.
    assert (H32 : (inject_Z (2 ^ 32) == 2 * inject_Z (2 ^ 31))%Q) by (unfold Qeq; reflexivity).
    apply timer_wait_small; nra.
Qed.

Lemma withRetry_backoff_bounds_witness :
  (0 <= 1000)%Q /\ (forall n, 0 <= env_random env0 n < 1)%Q
  /\ (forall s0, exists evs,
        st_trace (snd (scripted busy_twice env0 s0)) = st_trace s0 ++ evs /\ sleeps evs = [])
  /\ exists evs, st_trace (snd (withRetry (scripted busy_twice) 3 1000 env0 st0))
                   = st_trace st0 ++ evs
       /\ (length (sleeps evs) <= 3)%nat
       /\ (forall i d, nth_error (sleeps evs) i = Some d ->
             1000 * inject_Z (2 ^ Z.of_nat i) * (1#2) <= d
             <= 1000 * inject_Z (2 ^ Z.of_nat i))%Q
       /\ (fold_right Qplus 0 (sleeps evs) <= 1000 * (inject_Z (2 ^ Z.of_nat 3) - 1))%Q
       /\ ((1000 * inject_Z (2 ^ Z.of_nat 3) < inject_Z (2 ^ 32))%Q ->
           forall i d, nth_error (sleeps evs) i = Some d ->
             (inject_Z (timer_wait d) <= d < inject_Z (timer_wait d) + 1)%Q).
Proof.
  assert (H1 : (0 <= 1000)%Q) by lra.
  assert (H2 : (forall n, 0 <= env_random env0 n < 1)%Q) by (intros n; cbn; lra).
  assert (H3 : forall s0, exists evs,
    st_trace (snd (scripted busy_twice env0 s0)) = st_trace s0 ++ evs /\ sleeps evs = []).
  { intros s0. unfold scripted, net_call.
    destruct (busy_twice (st_ncalls s0)); eexists; split; reflexivity. }
  split; [exact H1|]. split; [exact H2|]. split; [exact H3|].
  exact (withRetry_backoff_bounds (scripted busy_twice) 3 1000 env0 st0 H1 H2 H3).
Defined.



(** X4: the create panel writes browser storage only after a confirmation
    that reported no error, and the stored ["lastCreatedToken"] and
    ["lastTokenAccount"] are the mint and the associated token account of
    the transaction it submitted. *)
Theorem create_storage_after_confirmation (p : Props) (env : Env) (s : St) :
  exists evs, st_trace (snd (handleCreateToken p env s)) = st_trace s ++ evs
    /\ storage_ok None false evs.
Proof. exact (handleCreateToken_storage_run p env s). Qed.

(** X5: with a wallet connected, the airdrop button makes exactly one airdrop
    request: one SOL ([1000000000] lamports) to the connected wallet.  The
    last notification it shows updates its loading notification to a
    final state (success or error), whatever the network answers. *)
Theorem airdrop_requests_one_sol (p : Props) (env : Env) (s : St) (pk : addr) :
  p_publicKey p = Some pk ->
  exists evs, st_trace (snd (handleAirdrop p env s)) = st_trace s ++ evs
    /\ airdrops evs = [(pk, 1000000000)]
    /\ exists k c, last_toast evs = Some (EToast k c (Some (TIdGen (st_nobj s))))
                  /\ k <> KLoading.
Proof.
  intros Hpk.
  destruct (handleAirdrop_request_run p env s pk Hpk) as (evs & Htr & Hair).
  destruct (handleAirdrop_settles_run p env s pk Hpk) as (evs' & Htr' & Hlast).
  rewrite Htr in Htr'. apply app_inv_head in Htr' as <-.
  exists evs. auto.
Qed.

Lemma airdrop_requests_one_sol_witness :
  p_publicKey props_submit = Some "owner"%string
  /\ exists evs, st_trace (snd (handleAirdrop props_submit env0 st0)) = st_trace st0 ++ evs
       /\ airdrops evs = [("owner"%string, 1000000000)]
       /\ exists k c, last_toast evs = Some (EToast k c (Some (TIdGen (st_nobj st0))))
                     /\ k <> KLoading.
Proof.
  assert (H : p_publicKey props_submit = Some "owner"%string) by reflexivity.
  split; [exact H|]. exact (airdrop_requests_one_sol props_submit env0 st0 _ H).
Defined.

(** X6: the send panel submits transfers only out of the sender's token
    account for the mint, and only after its first account lookup found
    that account. *)
Theorem send_transfers_from_checked_source (p : Props) (env : Env) (s : St) :
  exists evs, st_trace (snd (handleSendToken p env s)) = st_trace s ++ evs
    /\ source_checked None evs.
Proof. exact (handleSendToken_source_run p env s). Qed.

(** X7: once the send panel has shown its loading notification (a wallet is
    connected and the fields are filled in), the last notification it
    shows updates that loading notification, and to a final state
    (success or error), whatever the network answers. *)
Theorem send_settles_loading_notification (p : Props) (env : Env) (s : St) (pk : addr) :
  p_publicKey p = Some pk ->
  (is_empty (p_mintAddress p) || is_empty (p_recipientAddress p) || is_empty (p_amount p))
    = false ->
  exists evs, st_trace (snd (handleSendToken p env s)) = st_trace s ++ evs
    /\ exists k c, last_toast evs = Some (EToast k c (Some (TIdGen (st_nobj s))))
                  /\ k <> KLoading.
Proof. exact (handleSendToken_settles_run p env s pk). Qed.

Lemma send_settles_loading_notification_witness :
  p_publicKey props_submit = Some "owner"%string
  /\ (is_empty (p_mintAddress props_submit) || is_empty (p_recipientAddress props_submit)
      || is_empty (p_amount props_submit)) = false
  /\ exists evs, st_trace (snd (handleSendToken props_submit env_confirm_timeout st0))
                   = st_trace st0 ++ evs
       /\ exists k c, last_toast evs = Some (EToast k c (Some (TIdGen (st_nobj st0))))
                     /\ k <> KLoading.
Proof.
  assert (H1 : p_publicKey props_submit = Some "owner"%string) by reflexivity.
  assert (H2 : (is_empty (p_mintAddress props_submit) || is_empty (p_recipientAddress props_submit)
               || is_empty (p_amount props_submit)) = false) by reflexivity.
  split; [exact H1|]. split; [exact H2|].
  exact (send_settles_loading_notification props_submit env_confirm_timeout st0 _ H1 H2).
Defined.

(** X8: when the mint address is not a public key, the send panel makes no
    network request and turns its loading notification into the error
    "Invalid mint address format". *)
Theorem send_invalid_mint_address (p : Props) (env : Env) (s : St) (pk : addr) :
  p_publicKey p = Some pk ->
  endpoint_url_ok (p_endpoint p) = true ->
  (is_empty (p_mintAddress p) || is_empty (p_recipientAddress p) || is_empty (p_amount p))
    = false ->
  env_parse_pubkey env (p_mintAddress p) = None ->
  exists evs, st_trace (snd (handleSendToken p env s)) = st_trace s ++ evs
    /\ count is_net evs = 0%nat
    /\ last_toast evs
       = Some (EToast KError (TText "Invalid mint address format") (Some (TIdGen (st_nobj s)))).
Proof. exact (send_invalid_address_run p env s pk). Qed.

Lemma send_invalid_mint_address_witness :
  p_publicKey props_bad_mint = Some "owner"%string
  /\ endpoint_url_ok (p_endpoint props_bad_mint) = true
  /\ (is_empty (p_mintAddress props_bad_mint) || is_empty (p_recipientAddress props_bad_mint)
      || is_empty (p_amount props_bad_mint)) = false
  /\ env_parse_pubkey env_bad_mint (p_mintAddress props_bad_mint) = None
  /\ exists evs, st_trace (snd (handleSendToken props_bad_mint env_bad_mint st0))
                   = st_trace st0 ++ evs
       /\ count is_net evs = 0%nat
       /\ last_toast evs = Some (EToast KError (TText "Invalid mint address format")
                                  (Some (TIdGen (st_nobj st0)))).
Proof.
  assert (H1 : p_publicKey props_bad_mint = Some "owner"%string) by reflexivity.
  assert (Hu : endpoint_url_ok (p_endpoint props_bad_mint) = true) by reflexivity.
  assert (H2 : (is_empty (p_mintAddress props_bad_mint)
               || is_empty (p_recipientAddress props_bad_mint)
               || is_empty (p_amount props_bad_mint)) = false) by reflexivity.
  assert (H3 : env_parse_pubkey env_bad_mint (p_mintAddress props_bad_mint) = None)
    by reflexivity.
  split; [exact H1|]. split; [exact Hu|]. split; [exact H2|]. split; [exact H3|].
  exact (send_invalid_mint_address props_bad_mint env_bad_mint st0 _ H1 Hu H2 H3).
Defined.

(** X9: when the mint address is not a public key, both mint panels make no
    network request and show the error "Invalid mint address format" as
    a new notification: their loading notification is never updated nor
    dismissed, so it keeps spinning. *)
Theorem mint_invalid_address_leaves_loading (p : Props) (env : Env) (s : St) (pk : addr) :
  p_publicKey p = Some pk ->
  (is_empty (p_mintAddress p) || is_empty (p_amount p)) = false ->
  env_parse_pubkey env (p_mintAddress p) = None ->
  forall h, h = handleMintToken_part002 \/ h = handleMintToken ->
  exists evs, st_trace (snd (h p env s)) = st_trace s ++ evs
    /\ count is_net evs = 0%nat
    /\ forallb (fun e => negb (mentions_toast (TIdGen (st_nobj s)) e)) evs = true
    /\ last_toast evs = Some (EToast KError (TText "Invalid mint address format") None).
Proof.
  intros Hpk Hf Hm h Hh. exact (mint_invalid_address_run h p env s pk Hh Hpk Hf Hm).
Qed.

Lemma mint_invalid_address_leaves_loading_witness :
  p_publicKey props_bad_mint = Some "owner"%string
  /\ (is_empty (p_mintAddress props_bad_mint) || is_empty (p_amount props_bad_mint)) = false
  /\ env_parse_pubkey env_bad_mint (p_mintAddress props_bad_mint) = None
  /\ exists evs, st_trace (snd (handleMintToken props_bad_mint env_bad_mint st0))
                   = st_trace st0 ++ evs
       /\ count is_net evs = 0%nat
       /\ forallb (fun e => negb (mentions_toast (TIdGen (st_nobj st0)) e)) evs = true
       /\ last_toast evs = Some (EToast KError (TText "Invalid mint address format") None).
Proof.
  assert (H1 : p_publicKey props_bad_mint = Some "owner"%string) by reflexivity.
  assert (H2 : (is_empty (p_mintAddress props_bad_mint)
               || is_empty (p_amount props_bad_mint)) = false) by reflexivity.
  assert (H3 : env_parse_pubkey env_bad_mint (p_mintAddress props_bad_mint) = None)
    by reflexivity.
  split; [exact H1|]. split; [exact H2|]. split; [exact H3|].
  exact (mint_invalid_address_leaves_loading props_bad_mint env_bad_mint st0 _ H1 H2 H3
           handleMintToken (or_intror eq_refl)).
Defined.
